(** * mxbai-large.py: prompted encoders and benchmark task runners

    A shallow embedding of [model-specific-evals/mxbai-large.py].  The
    script wraps a sentence-embedding model in two adapters (queries are
    encoded with an instruction prompt, documents without), and runs two
    fixed lists of benchmark tasks through external evaluators.

    Python values are embedded as follows.
    - A [str] is the list of its code points ([pystr]); [len] is the length
      of that list and [strip] removes the code points CPython classifies
      as whitespace.
    - Keyword names, task names and paths are Rocq strings.
    - A [dict] is a [gmap]; a [set] of strings is a [gset].
    - Exceptions are values of [exn]; code that may raise returns a
      [result], and code that also logs or calls a library lives in the
      monad [M], which records the log lines and library calls in order.
    - The embedding model, dataset loaders and evaluators are libraries the
      script imports: they are fields of [externals], arbitrary functions
      that may raise. *)

From Stdlib Require Import ZArith List String Ascii.
From stdpp Require Import gmap strings list fin_maps fin_sets.

Open Scope Z_scope.

(** ** Python values, exceptions *)

Abbreviation pystr := (list N).

(** A Rocq string literal read as a Python [str] (one code point per
    character of the literal). *)
Definition py (s : string) : pystr :=
  N_of_ascii <$> list_ascii_of_string s.

#[warnings="-register-all"]
Inductive pyval :=
| PyNone
| PyBool (b : bool)
| PyInt (z : Z)
| PyStr (s : pystr)
| PyDict (d : gmap string pyval).

Inductive exn :=
| TypeError
| KeyError (key : string)
| IndexError
| ZeroDivisionError
| LibraryError (code : N).

Inductive result (A : Type) :=
| Ok (a : A)
| Raise (e : exn).
Arguments Ok {A} a.
Arguments Raise {A} e.

#[global] Instance result_ret : MRet result := λ A a, Ok a.
#[global] Instance result_bind : MBind result := λ A B f r,
  match r with
  | Ok a => f a
  | Raise e => Raise e
  end.
#[global] Instance result_fmap : FMap result := λ A B f r,
  match r with
  | Ok a => Ok (f a)
  | Raise e => Raise e
  end.

(** [[f x for x in l]] where [f] may raise: the first failure wins. *)
Fixpoint comprehension {A B} (f : A → result B) (l : list A) : result (list B) :=
  match l with
  | [] => Ok []
  | x :: l' => y ← f x; ys ← comprehension f l'; Ok (y :: ys)
  end.

(** ** [str.strip()] *)

(** [Py_UNICODE_ISSPACE]: the ASCII table of CPython for code points below
    128, and the Unicode white-space property above. *)
Definition Py_UNICODE_ISSPACE (c : N) : bool :=
  ((9 <=? c) && (c <=? 13) || (28 <=? c) && (c <=? 32)
   || (c =? 133) || (c =? 160) || (c =? 5760)
   || (8192 <=? c) && (c <=? 8202)
   || (c =? 8232) || (c =? 8233) || (c =? 8239) || (c =? 8287)
   || (c =? 12288))%N.

Fixpoint lstrip (s : pystr) : pystr :=
  match s with
  | c :: s' => if Py_UNICODE_ISSPACE c then lstrip s' else s
  | [] => []
  end.

Definition rstrip (s : pystr) : pystr := reverse (lstrip (reverse s)).

Definition strip (s : pystr) : pystr := rstrip (lstrip s).

(** ** Calls with keyword arguments

    A caller passes the leading, typed argument (the list of queries or
    documents), further positional arguments [args] and keyword arguments
    [kw].  The helpers below bind them to a [def]'s parameters the way
    CPython does; every binding failure is a [TypeError]. *)

Abbreviation kwargs_t := (gmap string pyval).

(** Parameters already filled positionally cannot be given again by
    keyword. *)
Definition reject_bound (names : list string) (kw : kwargs_t) : result unit :=
  if decide (Exists (λ n, is_Some (kw !! n)) names) then Raise TypeError
  else Ok tt.

(** No parameter is left to take a further positional argument. *)
Definition no_more_pos (args : list pyval) : result unit :=
  match args with
  | [] => Ok tt
  | _ :: _ => Raise TypeError
  end.

(** A required positional-or-keyword parameter. *)
Definition take_pos_or_kw (name : string) (args : list pyval) (kw : kwargs_t)
  : result (pyval * list pyval * kwargs_t) :=
  match args with
  | a :: args' =>
      match kw !! name with
      | Some _ => Raise TypeError
      | None => Ok (a, args', kw)
      end
  | [] =>
      match kw !! name with
      | Some v => Ok (v, [], delete name kw)
      | None => Raise TypeError
      end
  end.

(** A keyword-only parameter, required when it has no default. *)
Definition take_kwonly (name : string) (default : option pyval) (kw : kwargs_t)
  : result (pyval * kwargs_t) :=
  match kw !! name, default with
  | Some v, _ => Ok (v, delete name kw)
  | None, Some d => Ok (d, kw)
  | None, None => Raise TypeError
  end.

(** The keywords of a call [f(x, k1=v1, ..., **kwargs)]: a name given both
    explicitly and through [**kwargs] is a [TypeError]. *)
Fixpoint call_keywords (explicit : list (string * pyval)) (kwargs : kwargs_t)
  : result kwargs_t :=
  match explicit with
  | [] => Ok kwargs
  | (k, v) :: explicit' =>
      rest ← call_keywords explicit' kwargs;
      match rest !! k with
      | Some _ => Raise TypeError
      | None => Ok (<[k := v]> rest)
      end
  end.

(** [kwargs.pop(name, None)], for its effect on [kwargs]. *)
Definition kwargs_pop (name : string) (kwargs : kwargs_t) : kwargs_t :=
  delete name kwargs.

(** ** The script's types *)

(** The base embedding model: [encode] receives the sentences and the
    keywords of the call and returns the embeddings, or raises. *)
Record EncodeCall := {
  call_sentences : list pystr;
  call_keywords_of : kwargs_t;
}.

Record SentenceTransformer (Emb : Type) := {
  encode : EncodeCall → result Emb;
}.
Arguments encode {Emb} _ _.

(** A corpus document is a [dict] from field names to strings. *)
Abbreviation doc_t := (gmap string pystr).

(** A row of a reranking dataset. *)
Module Sample.
Record t := {
  query : pystr;
  positive : list pystr;
  negative : list pystr;
}.
End Sample.

(** The result of [a / b] on integers: the float nearest to the exact
    quotient, kept here as that quotient. *)
Record pyfloat := Quot { numer : Z; denom : Z }.

(** The types of the values the libraries exchange with the script, which
    the script never inspects: embeddings, the corpus, queries and
    relevance judgments of a retrieval task, search results, score
    reports. *)
Class Types := {
  Emb : Type;
  Corpus : Type;
  Queries : Type;
  Qrels : Type;
  Results : Type;
  Scores : Type;
}.

(** *** Log lines and library calls *)

Section Events.
Context `{T : Types}.

Inductive log_line :=
| LogEncodingQueries (prompt : pystr)
| LogEncodingCorpusNoPrompt
| LogCustomEncodingCorpus
| LogStartingRetrieval (task model_name : string) (prompt : pystr)
| LogScores (scores : Scores)
| LogStartingRerankingTask
| LogTotals (num_samples num_positive unique_positive
             num_negative unique_negative : Z)
| LogAverageLengths (avg_query avg_positive avg_negative : pyfloat)
| LogExampleQuery (q : pystr)
| LogExamplePositives (ps : list pystr)
| LogExampleNegatives (ns : list pystr)
| LogScoresComputed
| LogStartingReranking (task model_name : string) (prompt : pystr).

Inductive lib_call :=
| CallRetrievalTask (data_path model_name : string) (model_loaded : bool)
| CallRetrievalEvaluator (encode_kwargs : kwargs_t)
| CallSearch (c : Corpus) (q : Queries)
| CallEvaluate (qrels : Qrels) (results : Results) (k_values : list Z)
| CallLoadFromDisk (data_path : string)
| CallLoadModel (model_name : string)
| CallRerankingEvaluator (samples : list Sample.t) (task_name : option string)
                         (kwargs : kwargs_t)
| CallRerank (samples : list Sample.t)
| CallEmptyCache.

Inductive event :=
| Log (l : log_line)
| Lib (c : lib_call).

(** *** The monad of the script: a trace and an outcome *)

Record M (A : Type) := MkM { trace : list event; outcome : result A }.
#[global] Arguments MkM {A} _ _.
#[global] Arguments trace {A} _.
#[global] Arguments outcome {A} _.

#[global] Instance M_ret : MRet M := λ A a, MkM [] (Ok a).
#[global] Instance M_bind : MBind M := λ A B f m,
  match outcome m with
  | Ok a => MkM (trace m ++ trace (f a)) (outcome (f a))
  | Raise e => MkM (trace m) (Raise e)
  end.

Definition logger_info (l : log_line) : M unit := MkM [Log l] (Ok tt).

(** A library call: recorded, then its result or exception.  What the
    library does inside leaves no event: the lines the adapters log when
    an evaluator calls them are not in the trace. *)
Definition lib {A} (c : lib_call) (r : result A) : M A := MkM [Lib c] r.

(** Pure code that may raise. *)
Definition pure {A} (r : result A) : M A := MkM [] r.

(** [for x in l: body(x)] *)
Fixpoint for_each {A} (l : list A) (body : A → M unit) : M unit :=
  match l with
  | [] => mret tt
  | x :: l' => _ ← body x; for_each l' body
  end.

(** [self.model.encode(sentences, k1=v1, ..., **kwargs)] *)
Definition model_encode (m : SentenceTransformer Emb) (sentences : list pystr)
    (explicit : list (string * pyval)) (kwargs : kwargs_t) : M Emb :=
  kws ← pure (call_keywords explicit kwargs);
  pure (encode m {| call_sentences := sentences; call_keywords_of := kws |}).

End Events.

(** *** Constants of the script *)

Definition split : string := "test".
Definition PATH_TO_DATASET : string := "data".
Definition model_name : string := "mixedbread-ai/mxbai-embed-large-v1".
Definition QUERY_PROMPT : pystr :=
  py "Represent this sentence for searching relevant passages: ".
Definition RETRIEVAL_TASKS : list string := ["retrieval-s2p"; "retrieval-p2p"].
Definition RERANKING_TASKS : list string := ["reranking-s2p"; "reranking-p2p"].
(** The dict literal passed as [encode_kwargs] to both evaluators. *)
Definition encode_kwargs : kwargs_t :=
  <["batch_size" := PyInt 32]> (<["show_progress_bar" := PyBool true]> ∅).

(** ** Retrieval adapter *)

Module CustomDRESModel.
Section Class.
Context `{T : Types}.

Record t := { model : SentenceTransformer Emb; prompt : pystr }.

(** [def encode_queries(self, queries, *, batch_size, **kwargs)] *)
Definition encode_queries (self : t) (queries : list pystr)
    (args : list pyval) (kw : kwargs_t) : M Emb :=
  _ ← pure (no_more_pos args);
  _ ← pure (reject_bound ["self"; "queries"] kw);
  '(batch_size, kwargs) ← pure (take_kwonly "batch_size" None kw);
  _ ← logger_info (LogEncodingQueries (prompt self));
  model_encode (model self) queries
    [("prompt", PyStr (prompt self)); ("batch_size", batch_size)]
    kwargs.

(** [(doc.get('title', '') + ' ' + doc['text']).strip()] *)
Definition sentence_of (doc : doc_t) : result pystr :=
  let title := default [] (doc !! "title") in
  text ← match doc !! "text" with
         | Some t => Ok t
         | None => Raise (KeyError "text")
         end;
  Ok (strip (title ++ py " " ++ text)).

(** [def encode_corpus(self, corpus, batch_size, **kwargs)] *)
Definition encode_corpus (self : t) (corpus : list doc_t)
    (args : list pyval) (kw : kwargs_t) : M Emb :=
  _ ← pure (reject_bound ["self"; "corpus"] kw);
  '(batch_size, args, kwargs) ← pure (take_pos_or_kw "batch_size" args kw);
  _ ← pure (no_more_pos args);
  _ ← logger_info LogEncodingCorpusNoPrompt;
  let kwargs := kwargs_pop "request_qid" kwargs in
  sentences ← pure (comprehension sentence_of corpus);
  model_encode (model self) sentences
    [("batch_size", batch_size)]
    kwargs.

End Class.
End CustomDRESModel.

(** ** Reranking adapter *)

Module CustomRerankingModel.
Section Class.
Context `{T : Types}.

Record t := { model : SentenceTransformer Emb; prompt : pystr }.

(** [def encode_queries(self, queries, *, prompt_name=None, **kwargs)] *)
Definition encode_queries (self : t) (queries : list pystr)
    (args : list pyval) (kw : kwargs_t) : M Emb :=
  _ ← pure (no_more_pos args);
  _ ← pure (reject_bound ["self"; "queries"] kw);
  '(prompt_name, kwargs) ← pure (take_kwonly "prompt_name" (Some PyNone) kw);
  _ ← logger_info (LogEncodingQueries (prompt self));
  model_encode (model self) queries
    [("prompt", PyStr (prompt self))]
    kwargs.

(** [def encode_corpus(self, corpus, *, prompt_name=None, **kwargs)] *)
Definition encode_corpus (self : t) (corpus : list pystr)
    (args : list pyval) (kw : kwargs_t) : M Emb :=
  _ ← pure (no_more_pos args);
  _ ← pure (reject_bound ["self"; "corpus"] kw);
  '(prompt_name, kwargs) ← pure (take_kwonly "prompt_name" (Some PyNone) kw);
  _ ← logger_info LogCustomEncodingCorpus;
  model_encode (model self) corpus [] kwargs.

End Class.
End CustomRerankingModel.

(** ** Paths *)

(** [os.path.join(a, b)] on POSIX: an absolute [b] replaces [a], otherwise
    the two are joined by one separator unless [a] is empty or already
    ends with one. *)
Definition ends_with_sep (a : string) : bool :=
  match last (list_ascii_of_string a) with
  | Some c => bool_decide (c = "/"%char)
  | None => false
  end.

Definition join2 (a b : string) : string :=
  match b with
  | String "/" _ => b
  | _ =>
      if bool_decide (a = "") || ends_with_sep a then a +:+ b
      else a +:+ "/" +:+ b
  end.

(** [os.path.join(a, *p)] *)
Definition os_path_join (a : string) (p : list string) : string :=
  foldl join2 a p.

(** ** Statistics of a reranking split *)

Definition len {A} (l : list A) : Z := Z.of_nat (length l).

(** [sum(...)]: left to right, starting from 0. *)
Definition sum (l : list Z) : Z := foldl Z.add 0 l.

(** [a / b] on integers. *)
Definition truediv (a b : Z) : result pyfloat :=
  if decide (b = 0) then Raise ZeroDivisionError else Ok (Quot a b).

(** [set(item for sublist in xss for item in sublist)] *)
Definition set_of_items (xss : list (list pystr)) : gset pystr :=
  list_to_set (sublist ← xss; item ← sublist; [item]).

(** [l[0]] *)
Definition first_item {A} (l : list A) : result A :=
  match l with
  | x :: _ => Ok x
  | [] => Raise IndexError
  end.

(** Lines 179 to 183 of [load_data]: the counts, from the lists extracted
    from the samples. *)
Record counts := {
  num_samples : Z;
  num_positive : Z;
  num_negative : Z;
  unique_positive : gset pystr;
  unique_negative : gset pystr;
}.

Definition count_statistics (query : list pystr)
    (positive negative : list (list pystr)) : counts :=
  {| num_samples := len query;
     num_positive := sum (len <$> positive);
     num_negative := sum (len <$> negative);
     unique_positive := set_of_items positive;
     unique_negative := set_of_items negative |}.

(** Lines 184 to 186 of [load_data]: the average lengths, in the order of
    the source. *)
Record averages := {
  avg_query_len : pyfloat;
  avg_positive_len : pyfloat;
  avg_negative_len : pyfloat;
}.

Definition average_lengths (query : list pystr)
    (unique_positive unique_negative : gset pystr) : result averages :=
  avg_query_len ← truediv (sum (len <$> query)) (len query);
  avg_positive_len ←
    truediv (sum (len <$> elements unique_positive))
            (Z.of_nat (size unique_positive));
  avg_negative_len ←
    truediv (sum (len <$> elements unique_negative))
            (Z.of_nat (size unique_negative));
  Ok {| avg_query_len := avg_query_len;
        avg_positive_len := avg_positive_len;
        avg_negative_len := avg_negative_len |}.

(** ** The libraries *)

Section Libraries.
Context `{T : Types}.

(** What [RerankingTask] may hold in [self.model]: the plain model
    returned by [load_model], the adapter the script passes, or [None]. *)
Inductive encoder :=
| PlainModel (m : SentenceTransformer Emb)
| RerankingAdapter (m : CustomRerankingModel.t)
| NoModel.

(** The object built by [RetrievalTask(...)]: three dicts keyed by split. *)
Record retrieval_task := {
  corpus : gmap string Corpus;
  queries : gmap string Queries;
  relevant_docs : gmap string Qrels;
}.

(** The imported functions and classes, and the working directory. *)
Record externals := {
  getcwd : string;
  RetrievalTask : string → string → bool → result retrieval_task;
  RetrievalEvaluator : CustomDRESModel.t → kwargs_t → result unit;
  evaluator_call :
    CustomDRESModel.t → kwargs_t → Corpus → Queries → result Results;
  RetrievalEvaluator_evaluate : Qrels → Results → list Z → result Scores;
  load_from_disk : string → result (gmap string (list Sample.t));
  load_model : string → result (SentenceTransformer Emb);
  RerankingEvaluator : list Sample.t → option string → kwargs_t → result unit;
  RerankingEvaluator_call :
    list Sample.t → option string → kwargs_t → encoder → result Scores;
  empty_cache : result unit;
}.

(** [d[k]] *)
Definition getitem {V} (d : gmap string V) (k : string) : result V :=
  match d !! k with
  | Some v => Ok v
  | None => Raise (KeyError k)
  end.

End Libraries.

Section RetrievalRunner.
Context `{T : Types} (ext : externals).

(** ** Retrieval task runner (lines 89 to 109) *)

Definition retrieval_body (retriever : CustomDRESModel.t) (task : string)
  : M unit :=
  let data_path := os_path_join (getcwd ext) [PATH_TO_DATASET; task] in
  _ ← logger_info (LogStartingRetrieval task model_name QUERY_PROMPT);
  task ← lib (CallRetrievalTask data_path model_name true)
             (RetrievalTask ext data_path model_name true);
  corpus ← pure (getitem (corpus task) split);
  queries ← pure (getitem (queries task) split);
  qrels ← pure (getitem (relevant_docs task) split);
  _ ← lib (CallRetrievalEvaluator encode_kwargs)
          (RetrievalEvaluator ext retriever encode_kwargs);
  results ← lib (CallSearch corpus queries)
                (evaluator_call ext retriever encode_kwargs corpus queries);
  scores ← lib (CallEvaluate qrels results [1; 5; 10; 20; 50; 100])
               (RetrievalEvaluator_evaluate ext qrels results
                  [1; 5; 10; 20; 50; 100]);
  logger_info (LogScores scores).

End RetrievalRunner.

(** ** Reranking task (class [RerankingTask]) *)

Module RerankingTask.
Section Class.
Context `{T : Types} (ext : externals).

(** The attributes this class alone sets.  [self.samples] is handed to
    the evaluator's constructor, which keeps its own copy of it: the
    record does not follow it. *)
Record t := {
  split : string;
  model : encoder;
  scores : Scores;
}.

(** [def load_data(self, data_path, split)] *)
Definition load_data (data_path split : string) : M (list Sample.t) :=
  dataset ← lib (CallLoadFromDisk data_path) (load_from_disk ext data_path);
  samples ← pure (getitem dataset split);
  let query := Sample.query <$> samples in
  let positive := Sample.positive <$> samples in
  let negative := Sample.negative <$> samples in
  let c := count_statistics query positive negative in
  avg ← pure (average_lengths query (unique_positive c) (unique_negative c));
  _ ← logger_info
        (LogTotals (num_samples c)
           (num_positive c) (Z.of_nat (size (unique_positive c)))
           (num_negative c) (Z.of_nat (size (unique_negative c))));
  _ ← logger_info
        (LogAverageLengths (avg_query_len avg) (avg_positive_len avg)
           (avg_negative_len avg));
  q0 ← pure (first_item query);
  _ ← logger_info (LogExampleQuery q0);
  p0 ← pure (first_item positive);
  _ ← logger_info (LogExamplePositives (take 3 p0));
  n0 ← pure (first_item negative);
  _ ← logger_info (LogExampleNegatives (take 3 n0));
  mret samples.

(** [def compute_scores(self)]: the evaluator built by
    [super().__init__] from [samples], [task_name] and [kwargs] is called
    on [self.model]; the elapsed time it logs is left out of the log
    line. *)
Definition compute_scores (samples : list Sample.t)
    (task_name : option string) (kwargs : kwargs_t) (model : encoder)
  : M Scores :=
  scores ← lib (CallRerank samples)
               (RerankingEvaluator_call ext samples task_name kwargs model);
  _ ← logger_info LogScoresComputed;
  _ ← logger_info (LogScores scores);
  mret scores.

(** [def __init__(self, data_path, model_name, model=None,
    model_loaded=False, task_name=None, split="test", **kwargs)] *)
Definition init (data_path model_name : string) (model : encoder)
    (model_loaded : bool) (task_name : option string) (split : string)
    (kwargs : kwargs_t) : M t :=
  _ ← logger_info LogStartingRerankingTask;
  samples ← load_data data_path split;
  model ← (if negb model_loaded
           then m ← lib (CallLoadModel model_name)
                        (load_model ext model_name);
                mret (PlainModel m)
           else mret model);
  _ ← lib (CallRerankingEvaluator samples task_name kwargs)
          (RerankingEvaluator ext samples task_name kwargs);
  scores ← compute_scores samples task_name kwargs model;
  mret {| split := split; model := model; scores := scores |}.

End Class.
End RerankingTask.

(** ** Reranking task runner (lines 220 to 235) and the whole script *)

Section Script.
Context `{T : Types} (ext : externals).

Definition reranking_body (model : CustomRerankingModel.t) (task : string)
  : M unit :=
  let data_path := os_path_join (getcwd ext) [PATH_TO_DATASET; task] in
  _ ← logger_info (LogStartingReranking task model_name QUERY_PROMPT);
  reranking_task ←
    RerankingTask.init ext data_path model_name (RerankingAdapter model)
      true None "test" {["encode_kwargs" := PyDict encode_kwargs]};
  logger_info (LogScores (RerankingTask.scores reranking_task)).

(** The script from line 87 on, given the model loaded at line 40. *)
Definition script (model : SentenceTransformer Emb) : M unit :=
  let retriever :=
    {| CustomDRESModel.model := model;
       CustomDRESModel.prompt := QUERY_PROMPT |} in
  _ ← for_each RETRIEVAL_TASKS (retrieval_body ext retriever);
  let model :=
    {| CustomRerankingModel.model := model;
       CustomRerankingModel.prompt := QUERY_PROMPT |} in
  _ ← for_each RERANKING_TASKS (reranking_body model);
  lib CallEmptyCache (empty_cache ext).

End Script.

(** ** Notions used in the statements *)

(** [os.path.isabs(s)] on POSIX. *)
Definition isabs (s : string) : bool :=
  match s with
  | String "/" _ => true
  | _ => false
  end.

(** How [batch_size] reaches [encode_corpus]: as the second positional
    argument, or by keyword. *)
Definition batch_size_given (args : list pyval) (kw : kwargs_t) (bs : pyval)
  : Prop :=
  args = [bs] ∧ kw !! "batch_size" = None
  ∨ args = [] ∧ kw !! "batch_size" = Some bs.

(** The mean length of the strings of a list. *)
Definition mean_length (l : list pystr) : pyfloat :=
  Quot (sum (len <$> l)) (len l).

(** ** Reading a trace *)

Section Traces.
Context `{T : Types}.

(** The log line that opens the iteration of a task. *)
Definition starts (task : string) (ev : event) : Prop :=
  match ev with
  | Log (LogStartingRetrieval t _ _) | Log (LogStartingReranking t _ _) =>
      t = task
  | _ => False
  end.

(** A task was attempted when its iteration was entered. *)
Definition attempted (task : string) (tr : list event) : Prop :=
  Exists (starts task) tr.

(** The cutoffs of a call of [RetrievalEvaluator.evaluate]. *)
Definition evaluate_cutoffs (ev : event) : option (list Z) :=
  match ev with
  | Lib (CallEvaluate _ _ ks) => Some ks
  | _ => None
  end.

(** The library calls of a trace, in order. *)
Definition lib_calls (tr : list event) : list lib_call :=
  omap (λ ev, match ev with Lib c => Some c | Log _ => None end) tr.


(** What an iteration can leave in the trace: never the final cache
    release, no opening line of another task, and calls of [evaluate] with
    the cutoffs of the script only. *)
Definition body_event (task : string) (ev : event) : Prop :=
  ev ≠ Lib CallEmptyCache
  ∧ (∀ t, starts t ev → t = task)
  ∧ (∀ ks, evaluate_cutoffs ev = Some ks → ks = [1; 5; 10; 20; 50; 100]).

End Traces.

(** ** Failures of a task

    The ways in which loading a task's data or an evaluator can fail in
    one iteration of either loop, with the exception raised. *)

Section Failures.
Context `{T : Types} (ext : externals).

Inductive retrieval_failure (retriever : CustomDRESModel.t) (task : string)
    (e : exn) : Prop :=
| RetrievalTask_raises :
    RetrievalTask ext (os_path_join (getcwd ext) [PATH_TO_DATASET; task])
      model_name true = Raise e →
    retrieval_failure retriever task e
| retrieval_split_missing d :
    RetrievalTask ext (os_path_join (getcwd ext) [PATH_TO_DATASET; task])
      model_name true = Ok d →
    corpus d !! split = None ∨ queries d !! split = None
    ∨ relevant_docs d !! split = None →
    e = KeyError split →
    retrieval_failure retriever task e
| RetrievalEvaluator_raises d c q r :
    RetrievalTask ext (os_path_join (getcwd ext) [PATH_TO_DATASET; task])
      model_name true = Ok d →
    corpus d !! split = Some c → queries d !! split = Some q →
    relevant_docs d !! split = Some r →
    RetrievalEvaluator ext retriever encode_kwargs = Raise e →
    retrieval_failure retriever task e
| evaluator_call_raises d c q r :
    RetrievalTask ext (os_path_join (getcwd ext) [PATH_TO_DATASET; task])
      model_name true = Ok d →
    corpus d !! split = Some c → queries d !! split = Some q →
    relevant_docs d !! split = Some r →
    RetrievalEvaluator ext retriever encode_kwargs = Ok tt →
    evaluator_call ext retriever encode_kwargs c q = Raise e →
    retrieval_failure retriever task e
| evaluate_raises d c q r results :
    RetrievalTask ext (os_path_join (getcwd ext) [PATH_TO_DATASET; task])
      model_name true = Ok d →
    corpus d !! split = Some c → queries d !! split = Some q →
    relevant_docs d !! split = Some r →
    RetrievalEvaluator ext retriever encode_kwargs = Ok tt →
    evaluator_call ext retriever encode_kwargs c q = Ok results →
    RetrievalEvaluator_evaluate ext r results [1; 5; 10; 20; 50; 100]
    = Raise e →
    retrieval_failure retriever task e.

Inductive reranking_failure (model : CustomRerankingModel.t) (task : string)
    (e : exn) : Prop :=
| load_from_disk_raises :
    load_from_disk ext (os_path_join (getcwd ext) [PATH_TO_DATASET; task])
    = Raise e →
    reranking_failure model task e
| reranking_split_missing dataset :
    load_from_disk ext (os_path_join (getcwd ext) [PATH_TO_DATASET; task])
    = Ok dataset →
    dataset !! "test" = None →
    e = KeyError "test" →
    reranking_failure model task e
| statistics_raise dataset samples :
    load_from_disk ext (os_path_join (getcwd ext) [PATH_TO_DATASET; task])
    = Ok dataset →
    dataset !! "test" = Some samples →
    samples = []
    ∨ size (set_of_items (Sample.positive <$> samples)) = 0%nat
    ∨ size (set_of_items (Sample.negative <$> samples)) = 0%nat →
    e = ZeroDivisionError →
    reranking_failure model task e
| RerankingEvaluator_raises dataset samples :
    load_from_disk ext (os_path_join (getcwd ext) [PATH_TO_DATASET; task])
    = Ok dataset →
    dataset !! "test" = Some samples →
    samples ≠ [] →
    size (set_of_items (Sample.positive <$> samples)) ≠ 0%nat →
    size (set_of_items (Sample.negative <$> samples)) ≠ 0%nat →
    RerankingEvaluator ext samples None
      {["encode_kwargs" := PyDict encode_kwargs]} = Raise e →
    reranking_failure model task e
| RerankingEvaluator_call_raises dataset samples :
    load_from_disk ext (os_path_join (getcwd ext) [PATH_TO_DATASET; task])
    = Ok dataset →
    dataset !! "test" = Some samples →
    samples ≠ [] →
    size (set_of_items (Sample.positive <$> samples)) ≠ 0%nat →
    size (set_of_items (Sample.negative <$> samples)) ≠ 0%nat →
    RerankingEvaluator ext samples None
      {["encode_kwargs" := PyDict encode_kwargs]} = Ok tt →
    RerankingEvaluator_call ext samples None
      {["encode_kwargs" := PyDict encode_kwargs]} (RerankingAdapter model)
    = Raise e →
    reranking_failure model task e.

End Failures.

(** ** A recording model and sample inputs

    The recording model returns the call it receives as its embeddings, so
    that what an adapter passes to [encode] can be read off its result. *)

Definition recording_types : Types :=
  {| Emb := EncodeCall; Corpus := list doc_t; Queries := list pystr;
     Qrels := N; Results := N; Scores := N |}.

Definition recorder : SentenceTransformer EncodeCall := {| encode := Ok |}.

Definition recording_retriever : CustomDRESModel.t (T := recording_types) :=
  @CustomDRESModel.Build_t recording_types recorder QUERY_PROMPT.

Definition recording_reranker : CustomRerankingModel.t (T := recording_types) :=
  @CustomRerankingModel.Build_t recording_types recorder QUERY_PROMPT.

(** [{'title': 'Walls', 'text': ' load bearing '}] *)
Definition titled_doc : doc_t :=
  <["title" := py "Walls"]> (<["text" := py " load bearing "]> ∅).

(** [{'title': '', 'text': 'slab thickness'}] *)
Definition untitled_doc : doc_t :=
  <["title" := []]> (<["text" := py "slab thickness"]> ∅).

(** [batch_size=32, prompt_name='query'] *)
Definition kw_prompt_name : kwargs_t :=
  <["batch_size" := PyInt 32]> (<["prompt_name" := PyStr (py "query")]> ∅).


(** [batch_size=32, show_progress_bar=True, prompt_name='query',
    request_qid='q1'] *)
Definition kw_evaluator : kwargs_t :=
  <["request_qid" := PyStr (py "q1")]>
    (<["prompt_name" := PyStr (py "query")]> encode_kwargs).

(** [{'title': 'Doors'}]: a document without a text. *)
Definition textless_doc : doc_t := <["title" := py "Doors"]> ∅.

(** A document whose title is a space and a tab, and whose text is a
    newline and a space. *)
Definition blank_doc : doc_t :=
  <["title" := [32; 9]%N]> (<["text" := [10; 32]%N]> ∅).

(** [{'title': 'Slab', 'text': 'thickness, mm'}] *)
Definition clean_doc : doc_t :=
  <["title" := py "Slab"]> (<["text" := py "thickness, mm"]> ∅).

(** Two reranking samples that share the positive ['beam'], and one whose
    candidates are all distinct. *)
Definition sample_a : Sample.t :=
  {| Sample.query := py "span";
     Sample.positive := [py "beam"; py "girder"];
     Sample.negative := [py "door"; py "window"] |}.

Definition sample_b : Sample.t :=
  {| Sample.query := py "lintel";
     Sample.positive := [py "beam"];
     Sample.negative := [py "roof"] |}.

(** A sample without negatives. *)
Definition sample_no_negative : Sample.t :=
  {| Sample.query := py "span";
     Sample.positive := [py "beam"];
     Sample.negative := [] |}.

(** Libraries over the recording model: loading raises on the path
    [failing] and succeeds elsewhere, every reranking dataset holds
    [samples] as its test split, and the evaluators succeed. *)
Definition recording_externals (failing : string) (samples : list Sample.t)
  : externals (T := recording_types) :=
  @Build_externals recording_types
    "/work"
    (λ data_path _ _,
       if bool_decide (data_path = failing) then Raise (LibraryError 1)
       else Ok (@Build_retrieval_task recording_types
                  {["test" := [titled_doc]]}
                  {["test" := [py "wall height"]]}
                  {["test" := 7%N]}))
    (λ _ _, Ok tt)
    (λ _ _ _ _, Ok 8%N)
    (λ _ _ _, Ok 9%N)
    (λ data_path,
       if bool_decide (data_path = failing) then Raise (LibraryError 2)
       else Ok {["test" := samples]})
    (λ _, Ok recorder)
    (λ _ _ _, Ok tt)
    (λ _ _ _ _, Ok 10%N)
    (Ok tt).

(** Libraries whose retrieval tasks hold no queries for the test split. *)
Definition queryless_externals : externals (T := recording_types) :=
  @Build_externals recording_types
    "/work"
    (λ _ _ _,
       Ok (@Build_retrieval_task recording_types
             {["test" := [titled_doc]]} ∅ {["test" := 7%N]}))
    (λ _ _, Ok tt)
    (λ _ _ _ _, Ok 8%N)
    (λ _ _ _, Ok 9%N)
    (λ _, Ok ∅)
    (λ _, Ok recorder)
    (λ _ _ _, Ok tt)
    (λ _ _ _ _, Ok 10%N)
    (Ok tt).

(** * Properties *)

(** ** The monad *)

Section MonadFacts.
Context `{T : Types}.

Lemma pure_ok_bind {A B} (a : A) (f : A → M B) : pure (Ok a) ≫= f = f a.
Proof. unfold pure, mbind, M_bind; simpl. by destruct (f a). Qed.

Lemma pure_raise_bind {A B} (e : exn) (f : A → M B) :
  pure (Raise e) ≫= f = MkM [] (Raise e).
Proof. reflexivity. Qed.

Lemma logger_info_bind {B} (l : log_line) (f : unit → M B) :
  logger_info l ≫= f = MkM (Log l :: trace (f tt)) (outcome (f tt)).
Proof. reflexivity. Qed.

Lemma lib_ok_bind {A B} (c : lib_call) (a : A) (f : A → M B) :
  lib c (Ok a) ≫= f = MkM (Lib c :: trace (f a)) (outcome (f a)).
Proof. reflexivity. Qed.

Lemma lib_raise_bind {A B} (c : lib_call) (e : exn) (f : A → M B) :
  lib c (Raise e) ≫= f = MkM [Lib c] (Raise e).
Proof. reflexivity. Qed.

Lemma mret_bind {A B} (a : A) (f : A → M B) : mret a ≫= f = f a.
Proof. apply pure_ok_bind. Qed.

Lemma MkM_ok_bind {A B} (tr : list event) (a : A) (f : A → M B) :
  MkM tr (Ok a) ≫= f = MkM (tr ++ trace (f a)) (outcome (f a)).
Proof. reflexivity. Qed.

Lemma outcome_bind_raise {A B} (m : M A) (f : A → M B) (e : exn) :
  outcome m = Raise e → outcome (m ≫= f) = Raise e.
Proof. unfold mbind, M_bind. by intros ->. Qed.

Lemma bind_raise {A B} (m : M A) (f : A → M B) (e : exn) :
  outcome m = Raise e → m ≫= f = MkM (trace m) (Raise e).
Proof. unfold mbind, M_bind. by intros ->. Qed.

End MonadFacts.

(** ** Binding and keywords *)

Lemma reject_bound_ok (names : list string) (kw : kwargs_t) :
  Forall (λ n, kw !! n = None) names → reject_bound names kw = Ok tt.
Proof.
  intros Hfree. unfold reject_bound. case_decide as Hex; [|done].
  apply Exists_exists in Hex as (n & Hn & [v Hv]).
  rewrite Forall_forall in Hfree. specialize (Hfree n Hn). congruence.
Qed.

Lemma reject_bound_raise (names : list string) (kw : kwargs_t) (n : string) :
  n ∈ names → is_Some (kw !! n) → reject_bound names kw = Raise TypeError.
Proof.
  intros Hn Hsome. unfold reject_bound. case_decide as Hex; [done|].
  destruct Hex. apply Exists_exists. eauto.
Qed.

(** ** [strip] *)

Lemma lstrip_space (s : pystr) : lstrip (py " " ++ s) = lstrip s.
Proof. reflexivity. Qed.

Lemma strip_space (s : pystr) : strip (py " " ++ s) = strip s.
Proof. reflexivity. Qed.

(** [lstrip] drops a run of whitespace, and what it returns does not begin
    with whitespace. *)
Lemma lstrip_spec (s : pystr) :
  ∃ l, s = l ++ lstrip s
       ∧ Forall (λ c, Py_UNICODE_ISSPACE c = true) l
       ∧ match lstrip s with
         | c :: _ => Py_UNICODE_ISSPACE c = false
         | [] => True
         end.
Proof.
  induction s as [|c s (l & Hs & Hl & Hhead)]; [by exists []|].
  cbn [lstrip]. destruct (Py_UNICODE_ISSPACE c) eqn:Hc.
  - exists (c :: l). split; [by rewrite Hs at 1|]. split; [by constructor|done].
  - by exists [].
Qed.

(** [strip] removes a run of whitespace at each end, and what it returns
    neither begins nor ends with whitespace. *)
Lemma strip_spec (s : pystr) :
  ∃ l r, s = l ++ strip s ++ r
         ∧ Forall (λ c, Py_UNICODE_ISSPACE c = true) l
         ∧ Forall (λ c, Py_UNICODE_ISSPACE c = true) r
         ∧ (∀ c, head (strip s) = Some c → Py_UNICODE_ISSPACE c = false)
         ∧ (∀ c, last (strip s) = Some c → Py_UNICODE_ISSPACE c = false).
Proof.
  destruct (lstrip_spec s) as (l & Hs & Hl & Hhead).
  destruct (lstrip_spec (reverse (lstrip s))) as (r & Hrev & Hr & Hlast).
  assert (lstrip s = strip s ++ reverse r) as Hstrip.
  { unfold strip, rstrip. rewrite <-reverse_app, <-Hrev.
    by rewrite reverse_involutive. }
  exists l, (reverse r). split; [by rewrite <-Hstrip|]. split; [done|].
  split; [by apply Forall_reverse|]. split.
  - intros c Hc. rewrite Hstrip in Hhead.
    destruct (strip s) as [|c' t]; [done|]. by injection Hc as ->.
  - intros c Hc. unfold strip, rstrip in Hc. rewrite last_reverse in Hc.
    destruct (lstrip (reverse (lstrip s))) as [|c' t]; [done|].
    by injection Hc as ->.
Qed.

(** A tab, a newline and a no-break space are whitespace; inner spaces
    stay. *)
Example strip_example :
  strip ([32; 9]%N ++ py "Walls  load bearing" ++ [10; 160]%N)
  = py "Walls  load bearing".
Proof. reflexivity. Qed.

Example os_path_join_example :
  os_path_join "/work" [PATH_TO_DATASET; "retrieval-s2p"]
  = "/work/data/retrieval-s2p"
  ∧ os_path_join "/work/" ["data"; "/abs"; "x"] = "/abs/x".
Proof. split; reflexivity. Qed.

(** ** The retrieval adapter's corpus call *)

Section DRESFacts.
Context `{T : Types}.

Import CustomDRESModel.

(** The text of a document's sentence, for a document that has a text. *)
Lemma sentence_of_text (doc : doc_t) (text : pystr) :
  doc !! "text" = Some text →
  sentence_of doc = Ok (strip (default [] (doc !! "title") ++ py " " ++ text)).
Proof. unfold sentence_of. by intros ->. Qed.

Lemma comprehension_sentence_of (corpus : list doc_t) :
  Forall (λ doc, is_Some (doc !! "text")) corpus →
  comprehension sentence_of corpus
  = Ok ((λ doc, strip (default [] (doc !! "title") ++ py " "
                       ++ default [] (doc !! "text"))) <$> corpus).
Proof.
  induction 1 as [|doc corpus [text Htext] _ IH]; [done|].
  cbn [comprehension]. rewrite (sentence_of_text doc text Htext), IH.
  rewrite fmap_cons, Htext. reflexivity.
Qed.

Lemma encode_corpus_delegates (self : t) (corpus : list doc_t)
    (args : list pyval) (kw : kwargs_t) (bs : pyval) :
  kw !! "self" = None → kw !! "corpus" = None →
  batch_size_given args kw bs →
  Forall (λ doc, is_Some (doc !! "text")) corpus →
  encode_corpus self corpus args kw
  = MkM [Log LogEncodingCorpusNoPrompt]
      (encode (model self)
         {| call_sentences :=
              (λ doc, strip (default [] (doc !! "title") ++ py " "
                             ++ default [] (doc !! "text"))) <$> corpus;
            call_keywords_of :=
              <["batch_size" := bs]> (delete "request_qid" kw) |}).
Proof.
  intros Hself Hcorpus Hbs Htext. unfold encode_corpus.
  rewrite reject_bound_ok, pure_ok_bind by (repeat constructor; done).
  assert (∃ kwargs, take_pos_or_kw "batch_size" args kw = Ok (bs, [], kwargs)
                    ∧ kwargs !! "batch_size" = None
                    ∧ <["batch_size" := bs]> (delete "request_qid" kwargs)
                      = <["batch_size" := bs]> (delete "request_qid" kw))
    as (kwargs & -> & Hfree & Hkws).
  { destruct Hbs as [[-> Hkw]|[-> Hkw]]; unfold take_pos_or_kw; rewrite Hkw.
    - by exists kw.
    - exists (delete "batch_size" kw). split; [done|]. split.
      + apply lookup_delete_eq.
      + by rewrite delete_delete, insert_delete_eq. }
  rewrite pure_ok_bind. cbn [no_more_pos]. rewrite pure_ok_bind.
  rewrite logger_info_bind, comprehension_sentence_of, pure_ok_bind by done.
  unfold model_encode, kwargs_pop. cbn [call_keywords mbind result_bind].
  rewrite lookup_delete_ne, Hfree by done.
  rewrite pure_ok_bind, Hkws. reflexivity.
Qed.

End DRESFacts.

(** ** Claims on the retrieval adapter's corpus call *)

Section DRESCorpusClaims.
Context `{T : Types}.

Import CustomDRESModel.

(** C1: the claim says that a prompt-name entry of the keyword arguments is
    removed before [encode_corpus] delegates.  The code does not do so: on
    the corpus [[titled_doc]] with the keywords [batch_size=32,
    prompt_name='query'], whatever the base model, [encode] receives the
    keywords unchanged, [prompt_name] included. *)
Theorem encode_corpus_forwards_prompt_name (m : SentenceTransformer Emb) :
  encode_corpus {| model := m; prompt := QUERY_PROMPT |}
    [titled_doc] [] kw_prompt_name
  = MkM [Log LogEncodingCorpusNoPrompt]
      (encode m {| call_sentences := [py "Walls  load bearing"];
                   call_keywords_of := kw_prompt_name |})
  ∧ kw_prompt_name !! "prompt_name" = Some (PyStr (py "query")).
Proof.
  split; [|reflexivity].
  rewrite (encode_corpus_delegates _ _ _ _ (PyInt 32)).
  - reflexivity.
  - reflexivity.
  - reflexivity.
  - right. by split.
  - repeat constructor. by eexists.
Qed.

(** C3: for a corpus whose documents all have a text, the sentence
    [encode_corpus] submits for each document is its title (the empty
    string when there is none), one space and its text, stripped; when the
    title is empty this is the stripped text. *)
Theorem encode_corpus_sentences (self : t) (corpus : list doc_t)
    (args : list pyval) (kw : kwargs_t) (bs : pyval) :
  kw !! "self" = None → kw !! "corpus" = None →
  batch_size_given args kw bs →
  Forall (λ doc, is_Some (doc !! "text")) corpus →
  ∃ c, outcome (encode_corpus self corpus args kw) = encode (model self) c
    ∧ length (call_sentences c) = length corpus
    ∧ ∀ i doc text,
        corpus !! i = Some doc → doc !! "text" = Some text →
        call_sentences c !! i
        = Some (strip (default [] (doc !! "title") ++ py " " ++ text))
        ∧ (default [] (doc !! "title") = [] →
           call_sentences c !! i = Some (strip text)).
Proof.
  intros Hself Hcorpus Hbs Htext.
  rewrite (encode_corpus_delegates self corpus args kw bs) by done.
  eexists. split; [reflexivity|]. cbn [call_sentences]. split.
  { by rewrite length_fmap. }
  intros i doc text Hi Hdoc.
  rewrite list_lookup_fmap, Hi. cbn [fmap option_fmap option_map].
  rewrite Hdoc. split; [reflexivity|].
  intros ->. reflexivity.
Qed.

(** C10: [encode_corpus] removes the keyword [request_qid], present or
    not, and nothing else: the base model receives every other keyword of
    the caller with its value, [prompt_name] included. *)
Theorem encode_corpus_pops_only_request_qid (self : t) (corpus : list doc_t)
    (args : list pyval) (kw : kwargs_t) (bs : pyval) :
  kw !! "self" = None → kw !! "corpus" = None →
  batch_size_given args kw bs →
  Forall (λ doc, is_Some (doc !! "text")) corpus →
  ∃ c, outcome (encode_corpus self corpus args kw) = encode (model self) c
    ∧ call_keywords_of c !! "request_qid" = None
    ∧ call_keywords_of c !! "batch_size" = Some bs
    ∧ (∀ k, k ≠ "request_qid" → k ≠ "batch_size" →
            call_keywords_of c !! k = kw !! k)
    ∧ call_keywords_of c !! "prompt_name" = kw !! "prompt_name".
Proof.
  intros Hself Hcorpus Hbs Htext.
  rewrite (encode_corpus_delegates self corpus args kw bs) by done.
  eexists. split; [reflexivity|]. cbn [call_keywords_of].
  assert (∀ k, k ≠ "request_qid" → k ≠ "batch_size" →
               <["batch_size" := bs]> (delete "request_qid" kw) !! k = kw !! k)
    as Hframe.
  { intros k Hq Hb. by rewrite lookup_insert_ne, lookup_delete_ne. }
  split; [by rewrite lookup_insert_ne, lookup_delete_eq|].
  split; [by rewrite lookup_insert_eq|].
  split; [exact Hframe|]. by apply Hframe.
Qed.

End DRESCorpusClaims.

Lemma encode_corpus_sentences_witness :
  ∃ c, outcome (CustomDRESModel.encode_corpus recording_retriever
                  [titled_doc; untitled_doc] [] kw_evaluator)
       = Ok c
    ∧ length (call_sentences c) = 2%nat
    ∧ call_sentences c !! 0%nat = Some (py "Walls  load bearing")
    ∧ call_sentences c !! 1%nat = Some (py "slab thickness").
Proof.
  destruct (encode_corpus_sentences (T := recording_types)
              recording_retriever [titled_doc; untitled_doc] [] kw_evaluator
              (PyInt 32))
    as (c & Hc & Hlen & Hsent).
  - reflexivity.
  - reflexivity.
  - right. split; reflexivity.
  - repeat constructor; eexists; reflexivity.
  - exists c. split; [exact Hc|]. split; [exact Hlen|]. split.
    + exact (proj1 (Hsent 0%nat titled_doc (py " load bearing ")
                      eq_refl eq_refl)).
    + exact (proj2 (Hsent 1%nat untitled_doc (py "slab thickness")
                      eq_refl eq_refl) eq_refl).
Defined.

Lemma encode_corpus_pops_only_request_qid_witness :
  ∃ c, outcome (CustomDRESModel.encode_corpus recording_retriever
                  [titled_doc] [] kw_evaluator)
       = Ok c
    ∧ call_keywords_of c !! "request_qid" = None
    ∧ call_keywords_of c !! "batch_size" = Some (PyInt 32)
    ∧ (∀ k, k ≠ "request_qid" → k ≠ "batch_size" →
            call_keywords_of c !! k = kw_evaluator !! k)
    ∧ call_keywords_of c !! "prompt_name" = Some (PyStr (py "query")).
Proof.
  apply (encode_corpus_pops_only_request_qid (T := recording_types)
           recording_retriever [titled_doc] [] kw_evaluator (PyInt 32)).
  - reflexivity.
  - reflexivity.
  - right. split; reflexivity.
  - repeat constructor; eexists; reflexivity.
Defined.

(** ** Query calls, and the reranking adapter *)

Section QueryFacts.
Context `{T : Types}.

Lemma take_kwonly_default (name : string) (d : pyval) (kw : kwargs_t) :
  ∃ v, take_kwonly name (Some d) kw = Ok (v, delete name kw).
Proof.
  unfold take_kwonly. destruct (kw !! name) as [v|] eqn:Hkw.
  - by exists v.
  - exists d. by rewrite delete_id.
Qed.

Lemma dres_encode_queries_delegates (self : CustomDRESModel.t)
    (queries : list pystr) (kw : kwargs_t) (bs : pyval) :
  kw !! "self" = None → kw !! "queries" = None →
  kw !! "batch_size" = Some bs → kw !! "prompt" = None →
  CustomDRESModel.encode_queries self queries [] kw
  = MkM [Log (LogEncodingQueries (CustomDRESModel.prompt self))]
      (encode (CustomDRESModel.model self)
         {| call_sentences := queries;
            call_keywords_of :=
              <["prompt" := PyStr (CustomDRESModel.prompt self)]> kw |}).
Proof.
  intros Hself Hqueries Hbs Hprompt. unfold CustomDRESModel.encode_queries.
  cbn [no_more_pos]. rewrite pure_ok_bind.
  rewrite reject_bound_ok, pure_ok_bind by (repeat constructor; done).
  unfold take_kwonly. rewrite Hbs, pure_ok_bind, logger_info_bind.
  unfold model_encode. cbn [call_keywords mbind result_bind].
  rewrite lookup_delete_eq, insert_delete_eq, (insert_id kw) by done.
  cbn [mbind result_bind]. rewrite Hprompt, pure_ok_bind. reflexivity.
Qed.

(** The reranking adapter's methods, with the binding of [prompt_name]
    carried out: its value is dropped. *)
Lemma rerank_encode_queries_unfold (self : CustomRerankingModel.t)
    (queries : list pystr) (args : list pyval) (kw : kwargs_t) :
  CustomRerankingModel.encode_queries self queries args kw
  = (_ ← pure (no_more_pos args);
     _ ← pure (reject_bound ["self"; "queries"] kw);
     _ ← logger_info (LogEncodingQueries (CustomRerankingModel.prompt self));
     model_encode (CustomRerankingModel.model self) queries
       [("prompt", PyStr (CustomRerankingModel.prompt self))]
       (delete "prompt_name" kw)).
Proof.
  unfold CustomRerankingModel.encode_queries.
  destruct (take_kwonly_default "prompt_name" PyNone kw) as [v ->].
  destruct (no_more_pos args) as [[]|e]; [|done]. rewrite !pure_ok_bind.
  destruct (reject_bound _ kw) as [[]|e]; [|done]. by rewrite !pure_ok_bind.
Qed.

Lemma rerank_encode_corpus_unfold (self : CustomRerankingModel.t)
    (corpus : list pystr) (args : list pyval) (kw : kwargs_t) :
  CustomRerankingModel.encode_corpus self corpus args kw
  = (_ ← pure (no_more_pos args);
     _ ← pure (reject_bound ["self"; "corpus"] kw);
     _ ← logger_info LogCustomEncodingCorpus;
     model_encode (CustomRerankingModel.model self) corpus []
       (delete "prompt_name" kw)).
Proof.
  unfold CustomRerankingModel.encode_corpus.
  destruct (take_kwonly_default "prompt_name" PyNone kw) as [v ->].
  destruct (no_more_pos args) as [[]|e]; [|done]. rewrite !pure_ok_bind.
  destruct (reject_bound _ kw) as [[]|e]; [|done]. by rewrite !pure_ok_bind.
Qed.

Lemma reject_bound_insert (names : list string) (kw : kwargs_t)
    (k : string) (v : pyval) :
  k ∉ names →
  reject_bound names (<[k := v]> kw) = reject_bound names (delete k kw).
Proof.
  intros Hk. unfold reject_bound.
  assert (Exists (λ n, is_Some (<[k := v]> kw !! n)) names
          ↔ Exists (λ n, is_Some (delete k kw !! n)) names) as Hiff.
  { rewrite !Exists_exists. split; intros (n & Hn & Hsome); exists n;
      (split; [done|]); assert (k ≠ n) by (by intros ->).
    - by rewrite lookup_delete_ne, <-(lookup_insert_ne kw k n v).
    - by rewrite lookup_insert_ne, <-(lookup_delete_ne kw k n). }
  repeat case_decide; tauto.
Qed.


Lemma rerank_encode_corpus_delegates (self : CustomRerankingModel.t)
    (corpus : list pystr) (kw : kwargs_t) :
  kw !! "self" = None → kw !! "corpus" = None →
  CustomRerankingModel.encode_corpus self corpus [] kw
  = MkM [Log LogCustomEncodingCorpus]
      (encode (CustomRerankingModel.model self)
         {| call_sentences := corpus;
            call_keywords_of := delete "prompt_name" kw |}).
Proof.
  intros Hself Hcorpus. rewrite rerank_encode_corpus_unfold.
  cbn [no_more_pos]. rewrite pure_ok_bind.
  rewrite reject_bound_ok, pure_ok_bind by (repeat constructor; done).
  rewrite logger_info_bind. unfold model_encode.
  cbn [call_keywords]. rewrite pure_ok_bind. reflexivity.
Qed.

End QueryFacts.

Section PromptClaims.
Context `{T : Types}.

Lemma no_more_pos_raise (args : list pyval) (e : exn) :
  no_more_pos args = Raise e → e = TypeError.
Proof. destruct args; simpl; congruence. Qed.

Lemma reject_bound_raise_inv (names : list string) (kw : kwargs_t) (e : exn) :
  reject_bound names kw = Raise e → e = TypeError.
Proof. unfold reject_bound. case_decide; congruence. Qed.

(** What the base model receives from [model_encode]: a keyword clash, or
    a call whose keywords are the explicit ones over [kwargs]. *)
Lemma model_encode_absent (m : SentenceTransformer Emb)
    (sentences : list pystr) (explicit : list (string * pyval))
    (kwargs : kwargs_t) (k : string) :
  kwargs !! k = None → k ∉ explicit.*1 →
  outcome (model_encode m sentences explicit kwargs) = Raise TypeError
  ∨ ∃ c, outcome (model_encode m sentences explicit kwargs) = encode m c
       ∧ call_sentences c = sentences
       ∧ call_keywords_of c !! k = None.
Proof.
  intros Hk Hexplicit. unfold model_encode.
  assert (call_keywords explicit kwargs = Raise TypeError
          ∨ ∃ kws, call_keywords explicit kwargs = Ok kws ∧ kws !! k = None)
    as [->|(kws & -> & Hkws)].
  { induction explicit as [|[k' v] explicit IH]; [right; eauto|].
    cbn [call_keywords]. rewrite fmap_cons, not_elem_of_cons in Hexplicit.
    destruct Hexplicit as [Hne Hexplicit].
    destruct (IH Hexplicit) as [->|(kws & -> & Hkws)]; [by left|].
    cbn [mbind result_bind]. destruct (kws !! k'); [by left|].
    right. eexists. split; [done|]. by rewrite lookup_insert_ne. }
  - by left.
  - right. rewrite pure_ok_bind. eexists. split; [reflexivity|]. by split.
Qed.






Lemma take_kwonly_frame (name : string) (default : option pyval)
    (kw kwargs : kwargs_t) (v : pyval) (k : string) :
  take_kwonly name default kw = Ok (v, kwargs) → k ≠ name →
  kwargs !! k = kw !! k.
Proof.
  unfold take_kwonly. destruct (kw !! name), default; intros [= <- <-] Hk;
    by rewrite ?lookup_delete_ne.
Qed.










(** C6: in the reranking adapter a [prompt_name] keyword changes nothing,
    whatever its value: [encode_queries] and [encode_corpus] behave as
    without it, and the call the base model receives, when there is one,
    has no [prompt_name] keyword. *)
Theorem rerank_prompt_name_ignored (self : CustomRerankingModel.t)
    (queries corpus : list pystr) (args : list pyval) (kw : kwargs_t)
    (prompt_name : pyval) :
  let kw' := <["prompt_name" := prompt_name]> kw in
  CustomRerankingModel.encode_queries self queries args kw'
  = CustomRerankingModel.encode_queries self queries args
      (delete "prompt_name" kw)
  ∧ CustomRerankingModel.encode_corpus self corpus args kw'
    = CustomRerankingModel.encode_corpus self corpus args
        (delete "prompt_name" kw)
  ∧ (outcome (CustomRerankingModel.encode_queries self queries args kw')
     = Raise TypeError
     ∨ ∃ c, outcome (CustomRerankingModel.encode_queries self queries args kw')
            = encode (CustomRerankingModel.model self) c
          ∧ call_sentences c = queries
          ∧ call_keywords_of c !! "prompt_name" = None)
  ∧ (outcome (CustomRerankingModel.encode_corpus self corpus args kw')
     = Raise TypeError
     ∨ ∃ c, outcome (CustomRerankingModel.encode_corpus self corpus args kw')
            = encode (CustomRerankingModel.model self) c
          ∧ call_sentences c = corpus
          ∧ call_keywords_of c !! "prompt_name" = None).
Proof.
  intros kw'. subst kw'.
  rewrite !rerank_encode_queries_unfold, !rerank_encode_corpus_unfold.
  rewrite !reject_bound_insert by compute_done.
  rewrite delete_insert_eq, delete_delete_eq.
  split; [done|]. split; [done|].
  destruct (no_more_pos args) as [[]|e] eqn:Hargs.
  2:{ apply no_more_pos_raise in Hargs as ->. split; by left. }
  rewrite !pure_ok_bind. split.
  - destruct (reject_bound _ (delete _ kw)) as [[]|e] eqn:Hrej.
    2:{ apply reject_bound_raise_inv in Hrej as ->. by left. }
    rewrite pure_ok_bind, logger_info_bind. cbn [outcome].
    apply model_encode_absent; [apply lookup_delete_eq|].
    cbn. compute_done.
  - destruct (reject_bound _ (delete _ kw)) as [[]|e] eqn:Hrej.
    2:{ apply reject_bound_raise_inv in Hrej as ->. by left. }
    rewrite pure_ok_bind, logger_info_bind. cbn [outcome].
    apply model_encode_absent; [apply lookup_delete_eq|].
    cbn. apply not_elem_of_nil.
Qed.

End PromptClaims.



(** ** Sums, sets of items *)

Lemma foldl_add (a : Z) (l : list Z) : foldl Z.add a l = a + sum l.
Proof.
  unfold sum. revert a. induction l as [|x l IH]; intros a; simpl; [lia|].
  rewrite (IH (a + x)), (IH (0 + x)). lia.
Qed.

Lemma sum_cons (x : Z) (l : list Z) : sum (x :: l) = x + sum l.
Proof. unfold sum at 1. simpl. apply foldl_add. Qed.

Lemma sum_Permutation (l1 l2 : list Z) : l1 ≡ₚ l2 → sum l1 = sum l2.
Proof.
  induction 1 as [|x l1 l2 _ IH|x y l|l1 l2 l3 _ IH1 _ IH2];
    rewrite ?sum_cons; lia.
Qed.

Lemma len_app {A} (l1 l2 : list A) : len (l1 ++ l2) = len l1 + len l2.
Proof. unfold len. rewrite length_app. lia. Qed.

(** The total count is the number of candidate occurrences. *)
Lemma sum_len_concat {A} (xss : list (list A)) :
  sum (len <$> xss) = len (concat xss).
Proof.
  induction xss as [|xs xss IH]; [done|].
  rewrite fmap_cons, sum_cons, IH. simpl. by rewrite len_app.
Qed.

Lemma items_concat (xss : list (list pystr)) :
  (sublist ← xss; item ← sublist; [item]) = concat xss.
Proof.
  induction xss as [|xs xss IH]; [done|].
  rewrite bind_cons, IH. cbn [concat]. f_equal.
  clear. induction xs as [|x xs IH]; [done|]. rewrite bind_cons, IH. done.
Qed.

Lemma set_of_items_concat (xss : list (list pystr)) :
  set_of_items xss = list_to_set (concat xss).
Proof. unfold set_of_items. by rewrite items_concat. Qed.

Lemma list_to_set_remove_dups_L (l : list pystr) :
  list_to_set (C := gset pystr) (remove_dups l) = list_to_set l.
Proof.
  apply set_eq. intros x. by rewrite !elem_of_list_to_set, elem_of_remove_dups.
Qed.

Lemma elements_set_of_items (xss : list (list pystr)) :
  elements (set_of_items xss) ≡ₚ remove_dups (concat xss).
Proof.
  rewrite set_of_items_concat, <-list_to_set_remove_dups_L.
  apply elements_list_to_set, NoDup_remove_dups.
Qed.

Lemma size_set_of_items (xss : list (list pystr)) :
  size (set_of_items xss) = length (remove_dups (concat xss)).
Proof.
  rewrite set_of_items_concat, <-list_to_set_remove_dups_L.
  apply size_list_to_set, NoDup_remove_dups.
Qed.






(** ** Statistics of [load_data] *)


Lemma len_fmap {A B} (f : A → B) (l : list A) : len (f <$> l) = len l.
Proof. unfold len. by rewrite length_fmap. Qed.

Lemma len_zero {A} (l : list A) : len l = 0 ↔ l = [].
Proof. unfold len. destruct l; simpl; split; (done || lia). Qed.

Lemma average_lengths_ok (query : list pystr)
    (positive negative : list (list pystr)) :
  query ≠ [] →
  size (set_of_items positive) ≠ 0%nat →
  size (set_of_items negative) ≠ 0%nat →
  average_lengths query (set_of_items positive) (set_of_items negative)
  = Ok {| avg_query_len := mean_length query;
          avg_positive_len := mean_length (remove_dups (concat positive));
          avg_negative_len := mean_length (remove_dups (concat negative)) |}.
Proof.
  intros Hq Hp Hn. unfold average_lengths, truediv.
  destruct (decide (len query = 0)) as [Hz%len_zero|_]; [done|].
  cbn [mbind result_bind].
  destruct (decide (Z.of_nat (size (set_of_items positive)) = 0)); [lia|].
  cbn [mbind result_bind].
  destruct (decide (Z.of_nat (size (set_of_items negative)) = 0)); [lia|].
  cbn [mbind result_bind]. unfold mean_length, len.
  rewrite !size_set_of_items.
  rewrite (sum_Permutation _ _
             (fmap_Permutation _ _ _ (elements_set_of_items positive))).
  rewrite (sum_Permutation _ _
             (fmap_Permutation _ _ _ (elements_set_of_items negative))).
  reflexivity.
Qed.

Lemma average_lengths_zero (query : list pystr)
    (unique_positive unique_negative : gset pystr) :
  query = [] ∨ size unique_positive = 0%nat ∨ size unique_negative = 0%nat →
  average_lengths query unique_positive unique_negative
  = Raise ZeroDivisionError.
Proof.
  intros Hzero. unfold average_lengths, truediv.
  repeat (case_decide; cbn [mbind result_bind]; try done).
  destruct Hzero as [Hq|[Hp|Hn]]; [by apply len_zero in Hq|lia..].
Qed.

Section LoadDataFacts.
Context `{T : Types} (ext : externals).

Import RerankingTask.

(** [load_data] on a split it can load: the statistics it logs, and the
    samples it returns. *)
Lemma load_data_ok (data_path split : string)
    (dataset : gmap string (list Sample.t)) (s0 : Sample.t)
    (rest : list Sample.t) :
  let samples := s0 :: rest in
  let query := Sample.query <$> samples in
  let positive := Sample.positive <$> samples in
  let negative := Sample.negative <$> samples in
  load_from_disk ext data_path = Ok dataset →
  dataset !! split = Some samples →
  size (set_of_items positive) ≠ 0%nat →
  size (set_of_items negative) ≠ 0%nat →
  load_data ext data_path split
  = MkM [Lib (CallLoadFromDisk data_path);
         Log (LogTotals (len samples)
                (len (concat positive))
                (len (remove_dups (concat positive)))
                (len (concat negative))
                (len (remove_dups (concat negative))));
         Log (LogAverageLengths (mean_length query)
                (mean_length (remove_dups (concat positive)))
                (mean_length (remove_dups (concat negative))));
         Log (LogExampleQuery (Sample.query s0));
         Log (LogExamplePositives (take 3 (Sample.positive s0)));
         Log (LogExampleNegatives (take 3 (Sample.negative s0)))]
      (Ok samples).
Proof.
  intros samples query positive negative Hload Hsplit Hpos Hneg.
  unfold load_data. rewrite Hload, lib_ok_bind.
  unfold getitem. rewrite Hsplit, pure_ok_bind.
  fold samples query positive negative.
  cbn [count_statistics unique_positive unique_negative num_samples
       num_positive num_negative].
  rewrite average_lengths_ok by done. rewrite pure_ok_bind.
  rewrite !size_set_of_items, !sum_len_concat.
  subst query. rewrite len_fmap.
  reflexivity.
Qed.

(** [load_data] on an empty or degenerate split. *)
Lemma load_data_zero (data_path split : string)
    (dataset : gmap string (list Sample.t)) (samples : list Sample.t) :
  load_from_disk ext data_path = Ok dataset →
  dataset !! split = Some samples →
  samples = []
  ∨ size (set_of_items (Sample.positive <$> samples)) = 0%nat
  ∨ size (set_of_items (Sample.negative <$> samples)) = 0%nat →
  load_data ext data_path split
  = MkM [Lib (CallLoadFromDisk data_path)] (Raise ZeroDivisionError).
Proof.
  intros Hload Hsplit Hzero.
  unfold load_data. rewrite Hload, lib_ok_bind.
  unfold getitem. rewrite Hsplit, pure_ok_bind.
  cbn [count_statistics unique_positive unique_negative].
  rewrite average_lengths_zero; [done|].
  destruct Hzero as [->|[?|?]]; auto.
Qed.

(** C5: on a split [load_data] can load, with samples, positives and
    negatives, the logged average query length is the sum of the query
    lengths over the number of samples, and the logged average positive
    and negative lengths are the sums of the lengths of the candidates
    with duplicates removed over the number of those. *)
Theorem load_data_average_lengths (data_path split : string)
    (dataset : gmap string (list Sample.t)) (samples : list Sample.t) :
  let query := Sample.query <$> samples in
  let unique_positive := remove_dups (concat (Sample.positive <$> samples)) in
  let unique_negative := remove_dups (concat (Sample.negative <$> samples)) in
  load_from_disk ext data_path = Ok dataset →
  dataset !! split = Some samples →
  samples ≠ [] → unique_positive ≠ [] → unique_negative ≠ [] →
  outcome (load_data ext data_path split) = Ok samples
  ∧ Log (LogAverageLengths
           (Quot (sum (len <$> query)) (len samples))
           (Quot (sum (len <$> unique_positive)) (len unique_positive))
           (Quot (sum (len <$> unique_negative)) (len unique_negative)))
    ∈ trace (load_data ext data_path split).
Proof.
  intros query unique_positive unique_negative Hload Hsplit Hs Hp Hn.
  destruct samples as [|s0 rest]; [done|].
  rewrite (load_data_ok data_path split dataset s0 rest Hload Hsplit).
  - split; [done|]. cbn [trace]. do 2 apply list_elem_of_further.
    unfold mean_length. rewrite len_fmap.
    apply list_elem_of_here.
  - rewrite size_set_of_items. by intros ?%nil_length_inv.
  - rewrite size_set_of_items. by intros ?%nil_length_inv.
Qed.

(** C9: on a split without samples, without any positive or without any
    negative, [load_data] raises [ZeroDivisionError] right after loading,
    and so does the construction of the task, before the evaluator is
    built or called. *)
Theorem load_data_zero_division (data_path split : string)
    (dataset : gmap string (list Sample.t)) (samples : list Sample.t)
    (model_name : string) (model : encoder) (model_loaded : bool)
    (task_name : option string) (kwargs : kwargs_t) :
  load_from_disk ext data_path = Ok dataset →
  dataset !! split = Some samples →
  samples = []
  ∨ size (set_of_items (Sample.positive <$> samples)) = 0%nat
  ∨ size (set_of_items (Sample.negative <$> samples)) = 0%nat →
  load_data ext data_path split
  = MkM [Lib (CallLoadFromDisk data_path)] (Raise ZeroDivisionError)
  ∧ init ext data_path model_name model model_loaded task_name split kwargs
    = MkM [Log LogStartingRerankingTask; Lib (CallLoadFromDisk data_path)]
        (Raise ZeroDivisionError).
Proof.
  intros Hload Hsplit Hzero.
  pose proof (load_data_zero data_path split dataset samples
                Hload Hsplit Hzero) as Hdata.
  split; [exact Hdata|].
  unfold init. rewrite logger_info_bind, Hdata. reflexivity.
Qed.

End LoadDataFacts.


Lemma load_data_average_lengths_witness :
  let ext := recording_externals "" [sample_a; sample_b] in
  outcome (RerankingTask.load_data ext "/work/data/reranking-s2p" "test")
  = Ok [sample_a; sample_b]
  ∧ Log (LogAverageLengths (Quot 10 2) (Quot 10 2) (Quot 14 3))
    ∈ trace (RerankingTask.load_data ext "/work/data/reranking-s2p" "test").
Proof.
  apply (load_data_average_lengths (T := recording_types)
           (recording_externals "" [sample_a; sample_b])
           "/work/data/reranking-s2p" "test"
           {["test" := [sample_a; sample_b]]} [sample_a; sample_b]).
  - reflexivity.
  - reflexivity.
  - discriminate.
  - vm_compute. discriminate.
  - vm_compute. discriminate.
Defined.

Lemma load_data_zero_division_witness :
  (let ext := recording_externals "" [] in
   RerankingTask.load_data ext "/work/data/reranking-s2p" "test"
   = MkM [Lib (CallLoadFromDisk "/work/data/reranking-s2p")]
       (Raise ZeroDivisionError)
   ∧ RerankingTask.init ext "/work/data/reranking-s2p" model_name
       (RerankingAdapter recording_reranker) true None "test"
       {["encode_kwargs" := PyDict encode_kwargs]}
     = MkM [Log LogStartingRerankingTask;
            Lib (CallLoadFromDisk "/work/data/reranking-s2p")]
         (Raise ZeroDivisionError))
  ∧ (let ext := recording_externals "" [sample_no_negative] in
     RerankingTask.load_data ext "/work/data/reranking-s2p" "test"
     = MkM [Lib (CallLoadFromDisk "/work/data/reranking-s2p")]
         (Raise ZeroDivisionError)
     ∧ RerankingTask.init ext "/work/data/reranking-s2p" model_name
         (RerankingAdapter recording_reranker) true None "test"
         {["encode_kwargs" := PyDict encode_kwargs]}
       = MkM [Log LogStartingRerankingTask;
              Lib (CallLoadFromDisk "/work/data/reranking-s2p")]
           (Raise ZeroDivisionError)).
Proof.
  split.
  - apply (load_data_zero_division (T := recording_types)
             (recording_externals "" []) "/work/data/reranking-s2p" "test"
             {["test" := []]} []).
    + reflexivity.
    + reflexivity.
    + left. reflexivity.
  - apply (load_data_zero_division (T := recording_types)
             (recording_externals "" [sample_no_negative])
             "/work/data/reranking-s2p" "test"
             {["test" := [sample_no_negative]]} [sample_no_negative]).
    + reflexivity.
    + reflexivity.
    + right. right. reflexivity.
Defined.

(** ** The loops *)

Section LoopFacts.
Context `{T : Types}.

Lemma for_each_ok {A} (l : list A) (body : A → M unit) :
  Forall (λ x, outcome (body x) = Ok tt) l →
  for_each l body = MkM (l ≫= λ x, trace (body x)) (Ok tt).
Proof.
  induction 1 as [|x l Hx _ IH]; [done|].
  cbn [for_each]. unfold mbind at 1, M_bind. rewrite Hx, IH.
  by rewrite bind_cons.
Qed.

(** The first iteration that raises ends the loop: the iterations after
    it contribute nothing. *)
Lemma for_each_raise {A} (pre post : list A) (x : A) (body : A → M unit)
    (e : exn) :
  Forall (λ x, outcome (body x) = Ok tt) pre →
  outcome (body x) = Raise e →
  for_each (pre ++ x :: post) body
  = MkM ((pre ≫= λ x, trace (body x)) ++ trace (body x)) (Raise e).
Proof.
  intros Hpre Hx. induction Hpre as [|y pre Hy _ IH].
  - cbn [app for_each]. by rewrite (bind_raise _ _ e).
  - rewrite <-app_comm_cons. cbn [for_each].
    unfold mbind at 1, M_bind. rewrite Hy, IH. cbn [trace outcome].
    by rewrite bind_cons, app_assoc.
Qed.

Lemma Forall_trace_bind {A B} (P : event → Prop) (m : M A) (f : A → M B) :
  Forall P (trace m) → (∀ a, Forall P (trace (f a))) →
  Forall P (trace (m ≫= f)).
Proof.
  intros Hm Hf. unfold mbind, M_bind. destruct (outcome m); [|done].
  apply Forall_app. auto.
Qed.


End LoopFacts.

(** Splits a property of every event of a monadic computation along its
    binds, down to the single log lines and library calls. *)
Ltac trace_forall :=
  repeat (apply Forall_trace_bind; [|intros ?]);
  try (cbn [trace logger_info lib pure mret M_ret];
       repeat constructor; cbn; intuition congruence).

Section BodyFacts.
Context `{T : Types} (ext : externals).

Lemma retrieval_body_events (retriever : CustomDRESModel.t) (task : string) :
  Forall (body_event task) (trace (retrieval_body ext retriever task)).
Proof. unfold retrieval_body, body_event. trace_forall. Qed.

Lemma load_data_events (task data_path split : string) :
  Forall (body_event task) (trace (RerankingTask.load_data ext data_path split)).
Proof. unfold RerankingTask.load_data, body_event. trace_forall. Qed.

Lemma reranking_body_events (model : CustomRerankingModel.t) (task : string) :
  Forall (body_event task) (trace (reranking_body ext model task)).
Proof.
  unfold reranking_body, RerankingTask.init, RerankingTask.compute_scores.
  cbn [negb].
  repeat (apply Forall_trace_bind; [|intros ?]);
    try apply load_data_events;
    unfold body_event;
    try (cbn [trace logger_info lib pure mret M_ret];
         repeat constructor; cbn; intuition congruence).
Qed.

End BodyFacts.

(** Runs the script's monad forward over the steps whose results are
    known from the hypotheses. *)
Ltac run :=
  repeat (rewrite ?logger_info_bind, ?lib_ok_bind, ?lib_raise_bind,
            ?pure_ok_bind, ?pure_raise_bind;
          cbn [outcome trace]).

Section TaskFacts.
Context `{T : Types} (ext : externals).



Lemma retrieval_failure_outcome (retriever : CustomDRESModel.t)
    (task : string) (e : exn) :
  retrieval_failure ext retriever task e →
  outcome (retrieval_body ext retriever task) = Raise e.
Proof.
  intros Hfail. unfold retrieval_body. cbv zeta. run.
  destruct Hfail as [Hload|d Hload Hmiss ->|d c q r Hload Hc Hq Hr Hev
                    |d c q r Hload Hc Hq Hr Hev Hsearch
                    |d c q r results Hload Hc Hq Hr Hev Hsearch Heval];
    rewrite Hload; run; [done|..]; unfold getitem.
  - destruct (corpus d !! split); run; [|done].
    destruct (queries d !! split); run; [|done].
    destruct (relevant_docs d !! split); run; [|done].
    by destruct Hmiss as [?|[?|?]].
  - rewrite Hc, Hq, Hr. run. by rewrite Hev.
  - rewrite Hc, Hq, Hr. run. rewrite Hev. run. by rewrite Hsearch.
  - rewrite Hc, Hq, Hr. run. rewrite Hev. run. rewrite Hsearch. run.
    by rewrite Heval.
Qed.


Lemma init_failure_outcome (model : CustomRerankingModel.t)
    (task : string) (e : exn) :
  reranking_failure ext model task e →
  outcome (RerankingTask.init ext
             (os_path_join (getcwd ext) [PATH_TO_DATASET; task]) model_name
             (RerankingAdapter model) true None "test"
             {["encode_kwargs" := PyDict encode_kwargs]})
  = Raise e.
Proof.
  intros Hfail. unfold RerankingTask.init. run.
  destruct Hfail as [Hload|ds Hload Hmiss ->|ds samples Hload Hs Hzero ->
                    |ds samples Hload Hs Hne Hp Hn Hinit
                    |ds samples Hload Hs Hne Hp Hn Hinit Hcall].
  - apply outcome_bind_raise. unfold RerankingTask.load_data.
    rewrite Hload. by run.
  - apply outcome_bind_raise. unfold RerankingTask.load_data.
    rewrite Hload. run. unfold getitem. rewrite Hmiss. by run.
  - apply outcome_bind_raise.
    by rewrite (load_data_zero ext _ _ ds samples Hload Hs Hzero).
  - destruct samples as [|s0 rest]; [done|].
    rewrite (load_data_ok ext _ _ ds s0 rest Hload Hs Hp Hn).
    rewrite MkM_ok_bind. cbn [outcome negb]. rewrite mret_bind, Hinit.
    by run.
  - destruct samples as [|s0 rest]; [done|].
    rewrite (load_data_ok ext _ _ ds s0 rest Hload Hs Hp Hn).
    rewrite MkM_ok_bind. cbn [outcome negb]. rewrite mret_bind, Hinit.
    run. unfold RerankingTask.compute_scores. rewrite Hcall. by run.
Qed.

Lemma reranking_failure_outcome (model : CustomRerankingModel.t)
    (task : string) (e : exn) :
  reranking_failure ext model task e →
  outcome (reranking_body ext model task) = Raise e.
Proof.
  intros Hfail. unfold reranking_body. cbv zeta. run.
  by apply outcome_bind_raise, init_failure_outcome.
Qed.

Lemma NoDup_tasks : NoDup (RETRIEVAL_TASKS ++ RERANKING_TASKS).
Proof. compute_done. Qed.

(** The tasks attempted in the traces of a list of iterations are among
    that list. *)
Lemma attempted_in_traces (l : list string) (body : string → M unit)
    (t : string) :
  (∀ u, Forall (body_event u) (trace (body u))) →
  attempted t (l ≫= λ u, trace (body u)) → t ∈ l.
Proof.
  intros Hbody (ev & Hev & Hstart)%Exists_exists.
  apply list_elem_of_bind in Hev as (u & Hev & Hu).
  specialize (Hbody u). rewrite Forall_forall in Hbody.
  destruct (Hbody ev Hev) as (_ & Hown & _). by rewrite (Hown t Hstart).
Qed.

Lemma not_in_later (pre post : list string) (task t : string) :
  NoDup (pre ++ task :: post) → t ∈ pre ++ [task] → t ∉ post.
Proof.
  intros (_ & Hdisj & (Htask & _)%NoDup_cons)%NoDup_app Ht Hpost.
  apply elem_of_app in Ht as [Ht|Ht%list_elem_of_singleton].
  - apply (Hdisj t Ht). by apply list_elem_of_further.
  - by subst t.
Qed.

Lemma attempted_app (t : string) (tr1 tr2 : list event) :
  attempted t (tr1 ++ tr2) ↔ attempted t tr1 ∨ attempted t tr2.
Proof. apply Exists_app. Qed.

Lemma bind_traces_singleton (body : string → M unit) (u : string) :
  trace (body u) = [u] ≫= λ u, trace (body u).
Proof. by rewrite bind_singleton. Qed.

End TaskFacts.

(** ** Claims on the task loops *)

Section ScriptClaims.
Context `{T : Types} (ext : externals).


(** C8: a failure of loading or of an evaluator in the iteration of a
    task, all earlier iterations having succeeded, is the outcome of the
    whole script: no later task of either list is attempted, and the final
    cache release is not reached. *)
Theorem first_failure_aborts (model : SentenceTransformer Emb) :
  let retriever :=
    {| CustomDRESModel.model := model;
       CustomDRESModel.prompt := QUERY_PROMPT |} in
  let reranker :=
    {| CustomRerankingModel.model := model;
       CustomRerankingModel.prompt := QUERY_PROMPT |} in
  (∀ pre task post e,
     RETRIEVAL_TASKS = pre ++ task :: post →
     Forall (λ t, outcome (retrieval_body ext retriever t) = Ok tt) pre →
     retrieval_failure ext retriever task e →
     outcome (script ext model) = Raise e
     ∧ trace (script ext model)
       = (pre ≫= λ t, trace (retrieval_body ext retriever t))
         ++ trace (retrieval_body ext retriever task)
     ∧ (∀ t, t ∈ post ∨ t ∈ RERANKING_TASKS →
             ¬ attempted t (trace (script ext model)))
     ∧ Lib CallEmptyCache ∉ trace (script ext model))
  ∧ (∀ pre task post e,
       RERANKING_TASKS = pre ++ task :: post →
       Forall (λ t, outcome (retrieval_body ext retriever t) = Ok tt)
         RETRIEVAL_TASKS →
       Forall (λ t, outcome (reranking_body ext reranker t) = Ok tt) pre →
       reranking_failure ext reranker task e →
       outcome (script ext model) = Raise e
       ∧ trace (script ext model)
         = (RETRIEVAL_TASKS ≫= λ t, trace (retrieval_body ext retriever t))
           ++ (pre ≫= λ t, trace (reranking_body ext reranker t))
           ++ trace (reranking_body ext reranker task)
       ∧ (∀ t, t ∈ post → ¬ attempted t (trace (script ext model)))
       ∧ Lib CallEmptyCache ∉ trace (script ext model)).
Proof.
  intros retriever reranker. pose proof NoDup_tasks as Hnodup. split.
  - intros pre task post e Htasks Hpre Hfail.
    apply retrieval_failure_outcome in Hfail.
    assert (script ext model
            = MkM ((pre ≫= λ t, trace (retrieval_body ext retriever t))
                   ++ trace (retrieval_body ext retriever task)) (Raise e))
      as ->.
    { unfold script. cbv zeta. fold retriever. rewrite Htasks.
      by rewrite (for_each_raise pre post task _ e Hpre Hfail). }
    cbn [outcome trace]. split; [done|]. split; [done|]. split.
    + intros t Ht Hatt. rewrite Htasks in Hnodup.
      rewrite (bind_traces_singleton _ task), <-bind_app in Hatt.
      apply attempted_in_traces in Hatt;
        [|intros u; apply retrieval_body_events].
      apply NoDup_app in Hnodup as (Hretr & Hdisj & _).
      destruct Ht as [Ht|Ht].
      * by apply (not_in_later pre post task t Hretr).
      * apply (Hdisj t); [|done].
        apply elem_of_app in Hatt as [Hatt|Hatt%list_elem_of_singleton].
        -- apply elem_of_app. by left.
        -- subst t. apply elem_of_app. right. apply list_elem_of_here.
    + rewrite (bind_traces_singleton _ task), <-bind_app.
      intros (u & Hin & _)%list_elem_of_bind.
      pose proof (retrieval_body_events ext retriever u) as Hev.
      rewrite Forall_forall in Hev. by destruct (Hev _ Hin) as (Hne & _).
  - intros pre task post e Htasks Hretr Hpre Hfail.
    apply reranking_failure_outcome in Hfail.
    assert (script ext model
            = MkM ((RETRIEVAL_TASKS
                      ≫= λ t, trace (retrieval_body ext retriever t))
                   ++ (pre ≫= λ t, trace (reranking_body ext reranker t))
                   ++ trace (reranking_body ext reranker task)) (Raise e))
      as ->.
    { unfold script. cbv zeta. fold retriever reranker.
      rewrite (for_each_ok _ _ Hretr), MkM_ok_bind. rewrite Htasks.
      by rewrite (for_each_raise pre post task _ e Hpre Hfail). }
    cbn [outcome trace]. split; [done|]. split; [done|]. split.
    + intros t Ht Hatt. rewrite Htasks in Hnodup.
      apply attempted_app in Hatt as [Hatt|Hatt].
      * apply attempted_in_traces in Hatt;
          [|intros u; apply retrieval_body_events].
        apply NoDup_app in Hnodup as (_ & Hdisj & _).
        apply (Hdisj t Hatt). rewrite !elem_of_app, elem_of_cons. tauto.
      * rewrite (bind_traces_singleton _ task), <-bind_app in Hatt.
        apply attempted_in_traces in Hatt;
          [|intros u; apply reranking_body_events].
        apply NoDup_app in Hnodup as (_ & _ & Hrerank).
        by apply (not_in_later pre post task t Hrerank).
    + rewrite (bind_traces_singleton (reranking_body ext reranker) task).
      rewrite <-bind_app. rewrite elem_of_app.
      intros [(u & Hin & _)%list_elem_of_bind|(u & Hin & _)%list_elem_of_bind].
      * pose proof (retrieval_body_events ext retriever u) as Hev.
        rewrite Forall_forall in Hev. by destruct (Hev _ Hin) as (Hne & _).
      * pose proof (reranking_body_events ext reranker u) as Hev.
        rewrite Forall_forall in Hev. by destruct (Hev _ Hin) as (Hne & _).
Qed.

End ScriptClaims.


Lemma first_failure_aborts_witness :
  (let ext := recording_externals "/work/data/retrieval-p2p" [sample_a; sample_b] in
   outcome (script ext recorder) = Raise (LibraryError 1)
   ∧ ¬ attempted "reranking-s2p" (trace (script ext recorder))
   ∧ ¬ attempted "reranking-p2p" (trace (script ext recorder))
   ∧ Lib CallEmptyCache ∉ trace (script ext recorder))
  ∧ (let ext := recording_externals "/work/data/reranking-s2p" [sample_a; sample_b] in
     outcome (script ext recorder) = Raise (LibraryError 2)
     ∧ ¬ attempted "reranking-p2p" (trace (script ext recorder))
     ∧ Lib CallEmptyCache ∉ trace (script ext recorder)).
Proof.
  split.
  - destruct (proj1 (first_failure_aborts (T := recording_types)
                       (recording_externals "/work/data/retrieval-p2p"
                          [sample_a; sample_b]) recorder)
                ["retrieval-s2p"] "retrieval-p2p" [] (LibraryError 1))
      as (Hout & _ & Hnot & Hcache).
    + reflexivity.
    + repeat constructor.
    + apply RetrievalTask_raises. reflexivity.
    + split; [exact Hout|]. split; [|split; [|exact Hcache]].
      * apply Hnot. right. apply list_elem_of_here.
      * apply Hnot. right. apply list_elem_of_further, list_elem_of_here.
  - destruct (proj2 (first_failure_aborts (T := recording_types)
                       (recording_externals "/work/data/reranking-s2p"
                          [sample_a; sample_b]) recorder)
                [] "reranking-s2p" ["reranking-p2p"] (LibraryError 2))
      as (Hout & _ & Hnot & Hcache).
    + reflexivity.
    + repeat constructor.
    + constructor.
    + apply load_from_disk_raises. reflexivity.
    + split; [exact Hout|]. split; [|exact Hcache].
      apply Hnot. apply list_elem_of_here.
Defined.

(** * Further properties *)

(** ** The adapters on arbitrary calls *)

Section AdapterCalls.
Context `{T : Types}.

Lemma reject_bound_ok_inv (names : list string) (kw : kwargs_t) :
  reject_bound names kw = Ok tt → Forall (λ n, kw !! n = None) names.
Proof.
  unfold reject_bound. case_decide as Hex; [done|]. intros _.
  apply Forall_forall. intros n Hn.
  destruct (kw !! n) as [v|] eqn:Hkw; [|done].
  destruct Hex. apply Exists_exists. exists n. by rewrite Hkw.
Qed.

(** X1: whatever the arguments, [CustomDRESModel.encode_queries] either
    raises [TypeError] or logs once and calls [encode] on the queries as
    given, with the caller's keywords and [prompt] set to the adapter's
    prompt. *)
Theorem dres_encode_queries_prompt_fixed (self : CustomDRESModel.t)
    (queries : list pystr) (args : list pyval) (kw : kwargs_t) :
  outcome (CustomDRESModel.encode_queries self queries args kw)
  = Raise TypeError
  ∨ ∃ bs, args = [] ∧ kw !! "batch_size" = Some bs ∧ kw !! "prompt" = None
      ∧ CustomDRESModel.encode_queries self queries args kw
        = MkM [Log (LogEncodingQueries (CustomDRESModel.prompt self))]
            (encode (CustomDRESModel.model self)
               {| call_sentences := queries;
                  call_keywords_of :=
                    <["prompt" := PyStr (CustomDRESModel.prompt self)]> kw |}).
Proof.
  destruct args as [|a args]; [|by left].
  destruct (reject_bound ["self"; "queries"] kw) as [[]|e] eqn:Hrej.
  2:{ left. unfold CustomDRESModel.encode_queries. cbn [no_more_pos].
      rewrite pure_ok_bind, Hrej.
      by rewrite (reject_bound_raise_inv _ _ _ Hrej). }
  apply reject_bound_ok_inv in Hrej.
  destruct (kw !! "batch_size") as [bs|] eqn:Hbs.
  2:{ left. unfold CustomDRESModel.encode_queries. cbn [no_more_pos].
      rewrite pure_ok_bind, reject_bound_ok, pure_ok_bind by done.
      unfold take_kwonly. by rewrite Hbs. }
  destruct (kw !! "prompt") as [p|] eqn:Hprompt.
  - left. unfold CustomDRESModel.encode_queries. cbn [no_more_pos].
    rewrite pure_ok_bind, reject_bound_ok, pure_ok_bind by done.
    unfold take_kwonly. rewrite Hbs, pure_ok_bind, logger_info_bind.
    unfold model_encode. cbn [call_keywords mbind result_bind].
    rewrite lookup_delete_eq, insert_delete_eq, (insert_id kw) by done.
    cbn [mbind result_bind]. by rewrite Hprompt.
  - right. exists bs. repeat (split; [done|]).
    rewrite Forall_forall in Hrej.
    apply (dres_encode_queries_delegates self queries kw bs); try done.
    + apply Hrej, list_elem_of_here.
    + apply Hrej, list_elem_of_further, list_elem_of_here.
Qed.

(** X2: [CustomDRESModel.encode_queries] needs [batch_size] by keyword:
    a further positional argument, a keyword [self] or [queries], or a
    missing [batch_size] raises [TypeError] before anything is logged; a
    caller's own [prompt] keyword raises [TypeError] after the log line,
    and the model is not called. *)
Theorem dres_encode_queries_type_errors (self : CustomDRESModel.t)
    (queries : list pystr) (args : list pyval) (kw : kwargs_t) :
  (args ≠ [] ∨ is_Some (kw !! "self") ∨ is_Some (kw !! "queries")
   ∨ kw !! "batch_size" = None →
   CustomDRESModel.encode_queries self queries args kw
   = MkM [] (Raise TypeError))
  ∧ (args = [] → kw !! "self" = None → kw !! "queries" = None →
     is_Some (kw !! "batch_size") → is_Some (kw !! "prompt") →
     CustomDRESModel.encode_queries self queries args kw
     = MkM [Log (LogEncodingQueries (CustomDRESModel.prompt self))]
         (Raise TypeError)).
Proof.
  split.
  - intros Hbad. unfold CustomDRESModel.encode_queries.
    destruct args as [|a args]; [|done]. cbn [no_more_pos].
    rewrite pure_ok_bind.
    destruct Hbad as [Hargs|[Hself|[Hqueries|Hbs]]]; [done|..].
    + by rewrite (reject_bound_raise ["self"; "queries"] kw "self")
        by (done || apply list_elem_of_here).
    + by rewrite (reject_bound_raise ["self"; "queries"] kw "queries")
        by (done || apply list_elem_of_further, list_elem_of_here).
    + destruct (reject_bound ["self"; "queries"] kw) as [[]|e] eqn:Hrej.
      * rewrite pure_ok_bind. unfold take_kwonly. by rewrite Hbs.
      * by rewrite (reject_bound_raise_inv _ _ _ Hrej).
  - intros -> Hself Hqueries [bs Hbs] [p Hprompt].
    unfold CustomDRESModel.encode_queries. cbn [no_more_pos].
    rewrite pure_ok_bind.
    rewrite reject_bound_ok, pure_ok_bind by (repeat constructor; done).
    unfold take_kwonly. rewrite Hbs, pure_ok_bind, logger_info_bind.
    unfold model_encode. cbn [call_keywords mbind result_bind].
    rewrite lookup_delete_eq, insert_delete_eq, (insert_id kw) by done.
    cbn [mbind result_bind]. by rewrite Hprompt.
Qed.

End AdapterCalls.

Section RerankingCalls.
Context `{T : Types}.


(** X4: whatever the arguments, [CustomRerankingModel.encode_corpus]
    either raises [TypeError] or logs once and calls [encode] on the
    candidate strings as given, with every keyword of the caller except
    [prompt_name]: nothing else is removed, [request_qid] included. *)
Theorem rerank_encode_corpus_frame (self : CustomRerankingModel.t)
    (corpus : list pystr) (args : list pyval) (kw : kwargs_t) :
  outcome (CustomRerankingModel.encode_corpus self corpus args kw)
  = Raise TypeError
  ∨ ∃ c, CustomRerankingModel.encode_corpus self corpus args kw
         = MkM [Log LogCustomEncodingCorpus]
             (encode (CustomRerankingModel.model self) c)
       ∧ call_sentences c = corpus
       ∧ call_keywords_of c !! "prompt_name" = None
       ∧ call_keywords_of c !! "request_qid" = kw !! "request_qid"
       ∧ ∀ k, k ≠ "prompt_name" → call_keywords_of c !! k = kw !! k.
Proof.
  destruct args as [|a args].
  2:{ left. by rewrite rerank_encode_corpus_unfold. }
  destruct (reject_bound ["self"; "corpus"] kw) as [[]|e] eqn:Hrej.
  2:{ left. rewrite rerank_encode_corpus_unfold. cbn [no_more_pos].
      rewrite pure_ok_bind, Hrej.
      by rewrite (reject_bound_raise_inv _ _ _ Hrej). }
  apply reject_bound_ok_inv in Hrej. rewrite Forall_forall in Hrej.
  right. eexists. split.
  { apply rerank_encode_corpus_delegates.
    - apply Hrej, list_elem_of_here.
    - apply Hrej, list_elem_of_further, list_elem_of_here. }
  cbn [call_sentences call_keywords_of]. split; [done|].
  split; [apply lookup_delete_eq|].
  split; [by apply lookup_delete_ne|].
  intros k Hk. by apply lookup_delete_ne.
Qed.

End RerankingCalls.

Section CorpusCalls.
Context `{T : Types}.

(** [encode_corpus] once its parameters are bound. *)
Lemma encode_corpus_bound (self : CustomDRESModel.t) (corpus : list doc_t)
    (args : list pyval) (kw : kwargs_t) (bs : pyval) :
  kw !! "self" = None → kw !! "corpus" = None →
  batch_size_given args kw bs →
  CustomDRESModel.encode_corpus self corpus args kw
  = (_ ← logger_info LogEncodingCorpusNoPrompt;
     sentences ← pure (comprehension CustomDRESModel.sentence_of corpus);
     pure (encode (CustomDRESModel.model self)
             {| call_sentences := sentences;
                call_keywords_of :=
                  <["batch_size" := bs]> (delete "request_qid" kw) |})).
Proof.
  intros Hself Hcorpus Hbs. unfold CustomDRESModel.encode_corpus.
  rewrite reject_bound_ok, pure_ok_bind by (repeat constructor; done).
  assert (∃ kwargs, take_pos_or_kw "batch_size" args kw = Ok (bs, [], kwargs)
                    ∧ kwargs !! "batch_size" = None
                    ∧ <["batch_size" := bs]> (delete "request_qid" kwargs)
                      = <["batch_size" := bs]> (delete "request_qid" kw))
    as (kwargs & -> & Hfree & Hkws).
  { destruct Hbs as [[-> Hkw]|[-> Hkw]]; unfold take_pos_or_kw; rewrite Hkw.
    - by exists kw.
    - exists (delete "batch_size" kw). split; [done|]. split.
      + apply lookup_delete_eq.
      + by rewrite delete_delete, insert_delete_eq. }
  rewrite pure_ok_bind. cbn [no_more_pos]. rewrite pure_ok_bind.
  unfold model_encode, kwargs_pop. cbn [call_keywords mbind result_bind].
  rewrite lookup_delete_ne, Hfree by done.
  rewrite Hkws. f_equal.
Qed.

Lemma sentence_of_no_text (doc : doc_t) :
  doc !! "text" = None →
  CustomDRESModel.sentence_of doc = Raise (KeyError "text").
Proof. unfold CustomDRESModel.sentence_of. by intros ->. Qed.

Lemma comprehension_missing_text (corpus : list doc_t) (doc : doc_t) :
  doc ∈ corpus → doc !! "text" = None →
  comprehension CustomDRESModel.sentence_of corpus = Raise (KeyError "text").
Proof.
  intros Hin Hdoc. induction corpus as [|d corpus IH].
  - by apply elem_of_nil in Hin.
  - cbn [comprehension]. destruct (d !! "text") as [text|] eqn:Hd.
    + rewrite (sentence_of_text d text Hd). cbn [mbind result_bind].
      rewrite IH; [done|].
      apply elem_of_cons in Hin as [->|Hin]; [congruence|done].
    + by rewrite (sentence_of_no_text d Hd).
Qed.

(** X5: a document without a ['text'] entry makes
    [CustomDRESModel.encode_corpus] raise [KeyError('text')] after its log
    line, whatever the other documents are; the model is not called. *)
Theorem encode_corpus_missing_text (self : CustomDRESModel.t)
    (corpus : list doc_t) (args : list pyval) (kw : kwargs_t) (bs : pyval)
    (doc : doc_t) :
  kw !! "self" = None → kw !! "corpus" = None →
  batch_size_given args kw bs →
  doc ∈ corpus → doc !! "text" = None →
  CustomDRESModel.encode_corpus self corpus args kw
  = MkM [Log LogEncodingCorpusNoPrompt] (Raise (KeyError "text")).
Proof.
  intros Hself Hcorpus Hbs Hin Hdoc.
  rewrite (encode_corpus_bound self corpus args kw bs) by done.
  by rewrite (comprehension_missing_text corpus doc).
Qed.

(** X6: [batch_size] may reach [CustomDRESModel.encode_corpus] as the
    second positional argument or by keyword: the two calls behave alike. *)
Theorem encode_corpus_batch_size_positional (self : CustomDRESModel.t)
    (corpus : list doc_t) (kw : kwargs_t) (bs : pyval) :
  kw !! "batch_size" = None →
  CustomDRESModel.encode_corpus self corpus [bs] kw
  = CustomDRESModel.encode_corpus self corpus []
      (<["batch_size" := bs]> kw).
Proof.
  intros Hbs. unfold CustomDRESModel.encode_corpus.
  rewrite (reject_bound_insert _ kw "batch_size" bs) by compute_done.
  rewrite (delete_id kw "batch_size") by done.
  unfold take_pos_or_kw. rewrite Hbs, lookup_insert_eq.
  by rewrite delete_insert_eq, (delete_id kw "batch_size").
Qed.

(** X7: the value of a [request_qid] keyword has no effect on
    [CustomDRESModel.encode_corpus]: the call behaves as without it. *)
Theorem encode_corpus_request_qid_ignored (self : CustomDRESModel.t)
    (corpus : list doc_t) (args : list pyval) (kw : kwargs_t)
    (request_qid : pyval) :
  CustomDRESModel.encode_corpus self corpus args
    (<["request_qid" := request_qid]> kw)
  = CustomDRESModel.encode_corpus self corpus args (delete "request_qid" kw).
Proof.
  unfold CustomDRESModel.encode_corpus.
  rewrite (reject_bound_insert _ kw "request_qid") by compute_done.
  destruct (reject_bound _ (delete _ kw)) as [[]|e]; [|done].
  rewrite !pure_ok_bind. unfold take_pos_or_kw.
  rewrite lookup_insert_ne, lookup_delete_ne by done.
  destruct args as [|a args], (kw !! "batch_size") as [bs|]; try done;
    rewrite !pure_ok_bind; unfold kwargs_pop.
  - assert (delete "request_qid"
              (delete "batch_size" (<["request_qid" := request_qid]> kw))
            = delete "request_qid"
                (delete "batch_size" (delete "request_qid" kw))) as ->; [|done].
    apply map_eq. intros k. rewrite !lookup_delete, lookup_insert.
    by repeat case_decide.
  - by rewrite delete_insert_eq, delete_delete_eq.
Qed.

End CorpusCalls.

Lemma dres_encode_queries_type_errors_witness :
  CustomDRESModel.encode_queries recording_retriever [py "wall height"] []
    (delete "batch_size" encode_kwargs)
  = MkM [] (Raise TypeError)
  ∧ CustomDRESModel.encode_queries recording_retriever [py "wall height"] []
      (<["prompt" := PyStr (py "other")]> encode_kwargs)
    = MkM [Log (LogEncodingQueries QUERY_PROMPT)] (Raise TypeError).
Proof.
  split.
  - apply (proj1 (dres_encode_queries_type_errors (T := recording_types)
                    recording_retriever [py "wall height"] []
                    (delete "batch_size" encode_kwargs))).
    right. right. right. reflexivity.
  - apply (proj2 (dres_encode_queries_type_errors (T := recording_types)
                    recording_retriever [py "wall height"] []
                    (<["prompt" := PyStr (py "other")]> encode_kwargs))).
    + reflexivity.
    + reflexivity.
    + reflexivity.
    + eexists. reflexivity.
    + eexists. reflexivity.
Defined.

Lemma encode_corpus_missing_text_witness :
  CustomDRESModel.encode_corpus recording_retriever
    [titled_doc; textless_doc; untitled_doc] [] encode_kwargs
  = MkM [Log LogEncodingCorpusNoPrompt] (Raise (KeyError "text")).
Proof.
  apply (encode_corpus_missing_text (T := recording_types)
           recording_retriever [titled_doc; textless_doc; untitled_doc] []
           encode_kwargs (PyInt 32) textless_doc).
  - reflexivity.
  - reflexivity.
  - right. split; reflexivity.
  - apply list_elem_of_further, list_elem_of_here.
  - reflexivity.
Defined.

Lemma encode_corpus_batch_size_positional_witness :
  CustomDRESModel.encode_corpus recording_retriever [titled_doc]
    [PyInt 32] (delete "batch_size" encode_kwargs)
  = CustomDRESModel.encode_corpus recording_retriever [titled_doc] []
      (<["batch_size" := PyInt 32]> (delete "batch_size" encode_kwargs)).
Proof.
  apply (encode_corpus_batch_size_positional (T := recording_types)
           recording_retriever [titled_doc]
           (delete "batch_size" encode_kwargs) (PyInt 32)).
  reflexivity.
Defined.

(** ** The sentence of a document *)

Lemma lstrip_id (s : pystr) (c : N) :
  head s = Some c → Py_UNICODE_ISSPACE c = false → lstrip s = s.
Proof.
  destruct s as [|c' s]; [done|]. intros [= ->] Hc. cbn [lstrip].
  by rewrite Hc.
Qed.

Lemma lstrip_blank (s : pystr) :
  Forall (λ c, Py_UNICODE_ISSPACE c = true) s → lstrip s = [].
Proof. induction 1 as [|c s Hc _ IH]; [done|]. cbn [lstrip]. by rewrite Hc. Qed.

(** A string that neither begins nor ends with whitespace is its own
    [strip]. *)
Lemma strip_id (s : pystr) (c d : N) :
  head s = Some c → Py_UNICODE_ISSPACE c = false →
  last s = Some d → Py_UNICODE_ISSPACE d = false →
  strip s = s.
Proof.
  intros Hc Hcs Hd Hds. unfold strip, rstrip.
  rewrite (lstrip_id s c Hc Hcs).
  rewrite (lstrip_id (reverse s) d); [apply reverse_involutive| |done].
  by rewrite head_reverse.
Qed.

(** X8: for a document with a text, the sentence [encode_corpus] builds
    is the title, a space and the text with a run of whitespace removed at
    each end and nothing else changed; it neither begins nor ends with
    whitespace. *)
Theorem sentence_of_trimmed (doc : doc_t) (text : pystr) :
  doc !! "text" = Some text →
  ∃ s l r,
    CustomDRESModel.sentence_of doc = Ok s
    ∧ default [] (doc !! "title") ++ py " " ++ text = l ++ s ++ r
    ∧ Forall (λ c, Py_UNICODE_ISSPACE c = true) l
    ∧ Forall (λ c, Py_UNICODE_ISSPACE c = true) r
    ∧ (∀ c, head s = Some c → Py_UNICODE_ISSPACE c = false)
    ∧ (∀ c, last s = Some c → Py_UNICODE_ISSPACE c = false).
Proof.
  intros Htext. rewrite (sentence_of_text doc text Htext).
  destruct (strip_spec (default [] (doc !! "title") ++ py " " ++ text))
    as (l & r & Hs & Hl & Hr & Hhead & Hlast).
  by exists (strip (default [] (doc !! "title") ++ py " " ++ text)), l, r.
Qed.

(** X9: when the title is not empty and does not begin with whitespace,
    and the text is not empty and does not end with whitespace, the
    sentence is exactly the title, one space and the text. *)
Theorem sentence_of_clean (doc : doc_t) (title text : pystr) (c d : N) :
  doc !! "title" = Some title → doc !! "text" = Some text →
  head title = Some c → Py_UNICODE_ISSPACE c = false →
  last text = Some d → Py_UNICODE_ISSPACE d = false →
  CustomDRESModel.sentence_of doc = Ok (title ++ py " " ++ text).
Proof.
  intros Htitle Htext Hc Hcs Hd Hds.
  rewrite (sentence_of_text doc text Htext), Htitle. cbn [default]. f_equal.
  apply (strip_id _ c d); [|done| |done].
  - by destruct title.
  - rewrite !last_app, Hd. done.
Qed.

(** X10: when the title (if any) and the text consist of whitespace only,
    the empty text included, the sentence is the empty string. *)
Theorem sentence_of_blank (doc : doc_t) (text : pystr) :
  doc !! "text" = Some text →
  Forall (λ c, Py_UNICODE_ISSPACE c = true) (default [] (doc !! "title")) →
  Forall (λ c, Py_UNICODE_ISSPACE c = true) text →
  CustomDRESModel.sentence_of doc = Ok [].
Proof.
  intros Htext Hblank_title Hblank_text.
  rewrite (sentence_of_text doc text Htext). f_equal.
  unfold strip. rewrite lstrip_blank; [done|].
  apply Forall_app. split; [done|]. by constructor.
Qed.

Lemma sentence_of_trimmed_witness :
  ∃ s l r,
    CustomDRESModel.sentence_of titled_doc = Ok s
    ∧ py "Walls" ++ py " " ++ py " load bearing " = l ++ s ++ r
    ∧ Forall (λ c, Py_UNICODE_ISSPACE c = true) l
    ∧ Forall (λ c, Py_UNICODE_ISSPACE c = true) r
    ∧ (∀ c, head s = Some c → Py_UNICODE_ISSPACE c = false)
    ∧ (∀ c, last s = Some c → Py_UNICODE_ISSPACE c = false).
Proof.
  apply (sentence_of_trimmed titled_doc (py " load bearing ")). reflexivity.
Defined.

Lemma sentence_of_clean_witness :
  CustomDRESModel.sentence_of clean_doc = Ok (py "Slab thickness, mm").
Proof.
  apply (sentence_of_clean clean_doc (py "Slab") (py "thickness, mm")
           83%N 109%N); reflexivity.
Defined.

Lemma sentence_of_blank_witness :
  CustomDRESModel.sentence_of blank_doc = Ok [].
Proof.
  apply (sentence_of_blank blank_doc [10; 32]%N).
  - reflexivity.
  - repeat constructor.
  - repeat constructor.
Defined.

(** ** Counts and averages *)

Lemma sum_nonneg (l : list Z) : Forall (λ z, 0 ≤ z) l → 0 ≤ sum l.
Proof.
  induction 1 as [|x l Hx _ IH]; [done|]. rewrite sum_cons. lia.
Qed.

Lemma sum_len_nonneg {A} (l : list (list A)) : 0 ≤ sum (len <$> l).
Proof.
  apply sum_nonneg, Forall_fmap, Forall_forall. intros x _. unfold len.
  cbn. lia.
Qed.



(** X12: the three divisions of [load_data] raise nothing but
    [ZeroDivisionError], and raise it exactly when there is no sample, no
    unique positive or no unique negative; an average they return has a
    positive denominator and a numerator that is not negative. *)
Theorem average_lengths_raises_iff (query : list pystr)
    (unique_positive unique_negative : gset pystr) :
  (average_lengths query unique_positive unique_negative
   = Raise ZeroDivisionError
   ↔ query = [] ∨ size unique_positive = 0%nat
     ∨ size unique_negative = 0%nat)
  ∧ (∀ e, average_lengths query unique_positive unique_negative = Raise e →
          e = ZeroDivisionError)
  ∧ (∀ avg, average_lengths query unique_positive unique_negative = Ok avg →
       0 ≤ numer (avg_query_len avg) ∧ 0 < denom (avg_query_len avg)
       ∧ 0 ≤ numer (avg_positive_len avg) ∧ 0 < denom (avg_positive_len avg)
       ∧ 0 ≤ numer (avg_negative_len avg)
       ∧ 0 < denom (avg_negative_len avg)).
Proof.
  pose proof (sum_len_nonneg query).
  pose proof (sum_len_nonneg (elements unique_positive)).
  pose proof (sum_len_nonneg (elements unique_negative)).
  assert (0 ≤ len query) by (unfold len; lia).
  split; [split; [|apply average_lengths_zero]|split].
  - unfold average_lengths, truediv.
    destruct (decide (len query = 0)) as [?%len_zero|]; [by left|].
    cbn [mbind result_bind].
    destruct (decide (Z.of_nat (size unique_positive) = 0));
      [right; left; lia|].
    cbn [mbind result_bind].
    destruct (decide (Z.of_nat (size unique_negative) = 0));
      [right; right; lia|done].
  - unfold average_lengths, truediv.
    repeat (case_decide; cbn [mbind result_bind]; try congruence).
  - unfold average_lengths, truediv.
    repeat (case_decide; cbn [mbind result_bind]; try done).
    intros avg [= <-]. cbn. lia.
Qed.




Lemma average_lengths_raises_iff_witness :
  average_lengths [py "span"] (set_of_items [[py "beam"]]) (set_of_items [])
  = Raise ZeroDivisionError.
Proof.
  apply (proj2 (proj1 (average_lengths_raises_iff [py "span"]
                         (set_of_items [[py "beam"]]) (set_of_items [])))).
  right. right. reflexivity.
Defined.


(** ** Loading a reranking task *)

Lemma remove_dups_nil {A} `{EqDecision A} (l : list A) :
  remove_dups l = [] → l = [].
Proof.
  intros Hnil. destruct l as [|x l]; [done|].
  assert (x ∈ remove_dups (x :: l)) as Hx
    by apply elem_of_remove_dups, list_elem_of_here.
  rewrite Hnil in Hx. by apply elem_of_nil in Hx.
Qed.

Section LoadingTask.
Context `{T : Types} (ext : externals).

(** X14: when [load_from_disk] raises, [load_data] raises the same
    exception; when the dataset has no entry for the split, it raises
    [KeyError] on the split's name; in both cases nothing is logged. *)
Theorem load_data_failures (data_path split : string) :
  (∀ e, load_from_disk ext data_path = Raise e →
        RerankingTask.load_data ext data_path split
        = MkM [Lib (CallLoadFromDisk data_path)] (Raise e))
  ∧ (∀ dataset, load_from_disk ext data_path = Ok dataset →
        dataset !! split = None →
        RerankingTask.load_data ext data_path split
        = MkM [Lib (CallLoadFromDisk data_path)] (Raise (KeyError split))).
Proof.
  split.
  - intros e Hload. unfold RerankingTask.load_data. by rewrite Hload.
  - intros dataset Hload Hsplit. unfold RerankingTask.load_data.
    rewrite Hload, lib_ok_bind. unfold getitem. by rewrite Hsplit.
Qed.

(** X15: on a split with samples, positives and negatives, [load_data]
    returns the samples of the split unchanged, after one call of
    [load_from_disk] and five log lines: the totals (samples, total and
    unique positives, total and unique negatives), the averages, the
    query of the first sample, at most three of its positives and at most
    three of its negatives, in their order. *)
Theorem load_data_success (data_path split : string)
    (dataset : gmap string (list Sample.t)) (s0 : Sample.t)
    (rest : list Sample.t) :
  let samples := s0 :: rest in
  let positive := concat (Sample.positive <$> samples) in
  let negative := concat (Sample.negative <$> samples) in
  load_from_disk ext data_path = Ok dataset →
  dataset !! split = Some samples →
  positive ≠ [] → negative ≠ [] →
  ∃ averages examples_p examples_n,
    RerankingTask.load_data ext data_path split
    = MkM [Lib (CallLoadFromDisk data_path);
           Log (LogTotals (len samples)
                  (len positive) (len (remove_dups positive))
                  (len negative) (len (remove_dups negative)));
           Log averages;
           Log (LogExampleQuery (Sample.query s0));
           Log (LogExamplePositives examples_p);
           Log (LogExampleNegatives examples_n)]
        (Ok samples)
    ∧ examples_p `prefix_of` Sample.positive s0
    ∧ length examples_p = (length (Sample.positive s0) `min` 3)%nat
    ∧ examples_n `prefix_of` Sample.negative s0
    ∧ length examples_n = (length (Sample.negative s0) `min` 3)%nat.
Proof.
  intros samples positive negative Hload Hsplit Hp Hn.
  eexists _, (take 3 (Sample.positive s0)), (take 3 (Sample.negative s0)).
  split.
  - apply (load_data_ok ext data_path split dataset s0 rest Hload Hsplit).
    + rewrite size_set_of_items.
      by intros Hlen%nil_length_inv%remove_dups_nil.
    + rewrite size_set_of_items.
      by intros Hlen%nil_length_inv%remove_dups_nil.
  - rewrite !length_take. repeat split; try apply prefix_take; lia.
Qed.



Lemma outcome_bind_ok {A B} (m : M A) (f : A → M B) (a : A) :
  outcome m = Ok a → outcome (m ≫= f) = outcome (f a).
Proof. unfold mbind, M_bind. by intros ->. Qed.

(** X17: once the data is loaded and the evaluator built,
    [RerankingTask] calls the evaluator on the model it was given
    ([model_loaded=True]) or on the one [load_model] returned
    ([model_loaded=False]); it raises what the evaluator raises, and
    otherwise keeps the split name, that model and the evaluator's
    scores. *)
Theorem init_scores (data_path model_name : string) (model : encoder)
    (task_name : option string) (split : string) (kwargs : kwargs_t)
    (samples : list Sample.t) :
  outcome (RerankingTask.load_data ext data_path split) = Ok samples →
  RerankingEvaluator ext samples task_name kwargs = Ok tt →
  outcome (RerankingTask.init ext data_path model_name model true
             task_name split kwargs)
  = ((λ scores, {| RerankingTask.split := split;
                   RerankingTask.model := model;
                   RerankingTask.scores := scores |})
     <$> RerankingEvaluator_call ext samples task_name kwargs model)
  ∧ ∀ m, load_model ext model_name = Ok m →
      outcome (RerankingTask.init ext data_path model_name model false
                 task_name split kwargs)
      = ((λ scores, {| RerankingTask.split := split;
                       RerankingTask.model := PlainModel m;
                       RerankingTask.scores := scores |})
         <$> RerankingEvaluator_call ext samples task_name kwargs
               (PlainModel m)).
Proof.
  intros Hdata Hinit. split; [|intros m Hmodel];
    unfold RerankingTask.init; rewrite logger_info_bind; cbn [outcome negb];
    rewrite (outcome_bind_ok _ _ samples Hdata).
  - rewrite mret_bind, Hinit, lib_ok_bind. cbn [outcome].
    unfold RerankingTask.compute_scores.
    by destruct (RerankingEvaluator_call ext samples task_name kwargs model).
  - rewrite Hmodel, lib_ok_bind. cbn [mret M_ret trace outcome].
    rewrite MkM_ok_bind. cbn [outcome]. rewrite Hinit, lib_ok_bind.
    cbn [outcome]. unfold RerankingTask.compute_scores.
    by destruct (RerankingEvaluator_call ext samples task_name kwargs
                   (PlainModel m)).
Qed.

End LoadingTask.

Lemma load_data_failures_witness :
  RerankingTask.load_data
    (recording_externals "/work/data/reranking-s2p" [sample_a])
    "/work/data/reranking-s2p" "test"
  = MkM [Lib (CallLoadFromDisk "/work/data/reranking-s2p")]
      (Raise (LibraryError 2))
  ∧ RerankingTask.load_data (recording_externals "" [sample_a])
      "/work/data/reranking-s2p" "dev"
    = MkM [Lib (CallLoadFromDisk "/work/data/reranking-s2p")]
        (Raise (KeyError "dev")).
Proof.
  split.
  - apply (proj1 (load_data_failures (T := recording_types)
                    (recording_externals "/work/data/reranking-s2p"
                       [sample_a])
                    "/work/data/reranking-s2p" "test")).
    reflexivity.
  - apply (proj2 (load_data_failures (T := recording_types)
                    (recording_externals "" [sample_a])
                    "/work/data/reranking-s2p" "dev")
             {["test" := [sample_a]]}).
    + reflexivity.
    + reflexivity.
Defined.

Lemma load_data_success_witness :
  ∃ averages examples_p examples_n,
    RerankingTask.load_data (recording_externals "" [sample_a; sample_b])
      "/work/data/reranking-s2p" "test"
    = MkM [Lib (CallLoadFromDisk "/work/data/reranking-s2p");
           Log (LogTotals 2 3 2 3 3);
           Log averages;
           Log (LogExampleQuery (py "span"));
           Log (LogExamplePositives examples_p);
           Log (LogExampleNegatives examples_n)]
        (Ok [sample_a; sample_b])
    ∧ examples_p `prefix_of` [py "beam"; py "girder"]
    ∧ length examples_p = 2%nat
    ∧ examples_n `prefix_of` [py "door"; py "window"]
    ∧ length examples_n = 2%nat.
Proof.
  apply (load_data_success (T := recording_types)
           (recording_externals "" [sample_a; sample_b])
           "/work/data/reranking-s2p" "test"
           {["test" := [sample_a; sample_b]]} sample_a [sample_b]).
  - reflexivity.
  - reflexivity.
  - discriminate.
  - discriminate.
Defined.

Lemma init_scores_witness :
  outcome (RerankingTask.init (recording_externals "" [sample_a; sample_b])
             "/work/data/reranking-s2p" model_name
             (RerankingAdapter recording_reranker) true None "test"
             {["encode_kwargs" := PyDict encode_kwargs]})
  = Ok {| RerankingTask.split := "test";
          RerankingTask.model := RerankingAdapter recording_reranker;
          RerankingTask.scores := 10%N |}.
Proof.
  apply (proj1 (init_scores (T := recording_types)
                  (recording_externals "" [sample_a; sample_b])
                  "/work/data/reranking-s2p" model_name
                  (RerankingAdapter recording_reranker) None "test"
                  {["encode_kwargs" := PyDict encode_kwargs]}
                  [sample_a; sample_b] eq_refl eq_refl)).
Defined.

(** ** Data paths *)

Lemma append_assoc (a b c : string) : (a +:+ b) +:+ c = a +:+ b +:+ c.
Proof.
  induction a as [|x a IH]; [done|].
  change (String x ((a +:+ b) +:+ c) = String x (a +:+ b +:+ c)).
  by f_equal.
Qed.

Lemma append_inj (a b c : string) : a +:+ b = a +:+ c → b = c.
Proof.
  induction a as [|x a IH]; [done|].
  change (String x (a +:+ b) = String x (a +:+ c) → b = c).
  intros [= H]. auto.
Qed.

(** X20: the directory a task is loaded from is the task's name appended
    to a directory fixed by the working directory, for every task name
    that is not an absolute path; so different task names give different
    directories, and the four tasks of the script are loaded from four
    different directories. *)
Theorem data_paths_distinct (cwd : string) :
  (∃ dir, ∀ task, isabs task = false →
      os_path_join cwd [PATH_TO_DATASET; task] = dir +:+ task)
  ∧ (∀ task1 task2, isabs task1 = false → isabs task2 = false →
       os_path_join cwd [PATH_TO_DATASET; task1]
       = os_path_join cwd [PATH_TO_DATASET; task2] →
       task1 = task2)
  ∧ NoDup ((λ task, os_path_join cwd [PATH_TO_DATASET; task])
           <$> RETRIEVAL_TASKS ++ RERANKING_TASKS).
Proof.
  assert (∃ dir, ∀ task, isabs task = false →
            os_path_join cwd [PATH_TO_DATASET; task] = dir +:+ task)
    as [dir Hdir].
  { unfold os_path_join. cbn [foldl].
    destruct (bool_decide (join2 cwd PATH_TO_DATASET = "")
              || ends_with_sep (join2 cwd PATH_TO_DATASET)) eqn:Hsep.
    - exists (join2 cwd PATH_TO_DATASET). intros task Hrel.
      unfold join2 at 1. rewrite Hsep.
      destruct task as [|[[|] [|] [|] [|] [|] [|] [|] [|]] b'];
        (discriminate || auto).
    - exists (join2 cwd PATH_TO_DATASET +:+ "/"). intros task Hrel.
      unfold join2 at 1. rewrite Hsep, append_assoc.
      destruct task as [|[[|] [|] [|] [|] [|] [|] [|] [|]] b'];
        (discriminate || auto). }
  assert (∀ task1 task2, isabs task1 = false → isabs task2 = false →
            os_path_join cwd [PATH_TO_DATASET; task1]
            = os_path_join cwd [PATH_TO_DATASET; task2] →
            task1 = task2) as Hinj.
  { intros task1 task2 H1 H2. rewrite !Hdir by done. apply append_inj. }
  split; [by exists dir|]. split; [exact Hinj|].
  apply NoDup_fmap_2_strong; [|apply NoDup_tasks].
  unfold RETRIEVAL_TASKS, RERANKING_TASKS.
  intros task1 task2 Hin1 Hin2. apply Hinj.
  - revert Hin1. rewrite !elem_of_app, !elem_of_cons, !elem_of_nil.
    intros [[->|[->|[]]]|[->|[->|[]]]]; reflexivity.
  - revert Hin2. rewrite !elem_of_app, !elem_of_cons, !elem_of_nil.
    intros [[->|[->|[]]]|[->|[->|[]]]]; reflexivity.
Qed.

Lemma data_paths_distinct_witness :
  ∃ dir,
    os_path_join "/work" [PATH_TO_DATASET; "retrieval-s2p"]
    = dir +:+ "retrieval-s2p"
    ∧ os_path_join "/work" [PATH_TO_DATASET; "reranking-p2p"]
      = dir +:+ "reranking-p2p".
Proof.
  destruct (proj1 (data_paths_distinct "/work")) as [dir Hdir].
  exists dir. split; apply Hdir; reflexivity.
Defined.

(** ** One iteration, and the whole run *)

Section Iterations.
Context `{T : Types} (ext : externals).

Lemma bind_ok {A B} (m : M A) (f : A → M B) (a : A) :
  outcome m = Ok a →
  m ≫= f = MkM (trace m ++ trace (f a)) (outcome (f a)).
Proof. unfold mbind, M_bind. by intros ->. Qed.

(** X21: when the loaded retrieval task has no ['test'] entry for its
    corpus, its queries or its relevance judgments, the iteration raises
    [KeyError('test')] right after loading: no evaluator is built. *)
Theorem retrieval_body_missing_split (retriever : CustomDRESModel.t)
    (task : string) (d : retrieval_task) :
  RetrievalTask ext (os_path_join (getcwd ext) [PATH_TO_DATASET; task])
    model_name true = Ok d →
  corpus d !! "test" = None ∨ queries d !! "test" = None
  ∨ relevant_docs d !! "test" = None →
  retrieval_body ext retriever task
  = MkM [Log (LogStartingRetrieval task model_name QUERY_PROMPT);
         Lib (CallRetrievalTask
                (os_path_join (getcwd ext) [PATH_TO_DATASET; task])
                model_name true)]
      (Raise (KeyError "test")).
Proof.
  intros Hload Hmiss. unfold retrieval_body. cbv zeta. run.
  rewrite Hload. run. unfold getitem, split.
  destruct (corpus d !! "test"); run; [|done].
  destruct (queries d !! "test"); run; [|done].
  destruct (relevant_docs d !! "test"); run; [|done].
  by destruct Hmiss as [?|[?|?]].
Qed.

(** X22: in an iteration of the retrieval loop whose library calls all
    succeed, the script's own library calls are, in this order: loading
    the task, building the evaluator with [batch_size=32] and
    [show_progress_bar=True], the search of the corpus with the queries
    of the test split, and [evaluate] against its relevance judgments;
    the iteration opens with its start line and ends with the scores
    logged. *)
Theorem retrieval_body_success (retriever : CustomDRESModel.t)
    (task : string) d c q r results scores :
  RetrievalTask ext (os_path_join (getcwd ext) [PATH_TO_DATASET; task])
    model_name true = Ok d →
  corpus d !! "test" = Some c → queries d !! "test" = Some q →
  relevant_docs d !! "test" = Some r →
  RetrievalEvaluator ext retriever encode_kwargs = Ok tt →
  evaluator_call ext retriever encode_kwargs c q = Ok results →
  RetrievalEvaluator_evaluate ext r results [1; 5; 10; 20; 50; 100]
  = Ok scores →
  outcome (retrieval_body ext retriever task) = Ok tt
  ∧ lib_calls (trace (retrieval_body ext retriever task))
    = [CallRetrievalTask
         (os_path_join (getcwd ext) [PATH_TO_DATASET; task]) model_name true;
       CallRetrievalEvaluator
         (<["batch_size" := PyInt 32]>
            (<["show_progress_bar" := PyBool true]> ∅));
       CallSearch c q;
       CallEvaluate r results [1; 5; 10; 20; 50; 100]]
  ∧ head (trace (retrieval_body ext retriever task))
    = Some (Log (LogStartingRetrieval task model_name QUERY_PROMPT))
  ∧ last (trace (retrieval_body ext retriever task))
    = Some (Log (LogScores scores)).
Proof.
  intros Hload Hc Hq Hr Hev Hsearch Heval.
  assert (retrieval_body ext retriever task
          = MkM [Log (LogStartingRetrieval task model_name QUERY_PROMPT);
                 Lib (CallRetrievalTask
                        (os_path_join (getcwd ext) [PATH_TO_DATASET; task])
                        model_name true);
                 Lib (CallRetrievalEvaluator encode_kwargs);
                 Lib (CallSearch c q);
                 Lib (CallEvaluate r results [1; 5; 10; 20; 50; 100]);
                 Log (LogScores scores)]
              (Ok tt)) as ->; [|done].
  unfold retrieval_body. cbv zeta.
  run. rewrite Hload. run. unfold getitem, split. rewrite Hc, Hq, Hr. run.
  rewrite Hev. run. rewrite Hsearch. run. rewrite Heval. by run.
Qed.

(** X23: an iteration of the reranking loop whose data loads and whose
    evaluator succeeds ends, once the evaluator has returned, with the
    line on the computation and the score report logged twice: once in
    [compute_scores] and once in the loop. *)
Theorem reranking_body_success (model : CustomRerankingModel.t)
    (task : string) (samples : list Sample.t) (scores : Scores) :
  let data_path := os_path_join (getcwd ext) [PATH_TO_DATASET; task] in
  let kwargs := {["encode_kwargs" := PyDict encode_kwargs]} in
  outcome (RerankingTask.load_data ext data_path "test") = Ok samples →
  RerankingEvaluator ext samples None kwargs = Ok tt →
  RerankingEvaluator_call ext samples None kwargs (RerankingAdapter model)
  = Ok scores →
  outcome (reranking_body ext model task) = Ok tt
  ∧ ∃ tr, trace (reranking_body ext model task)
          = tr ++ [Log LogScoresComputed;
                   Log (LogScores scores);
                   Log (LogScores scores)].
Proof.
  intros data_path kwargs Hdata Hinit Hcall.
  assert (reranking_body ext model task
          = MkM (([Log (LogStartingReranking task model_name QUERY_PROMPT);
                   Log LogStartingRerankingTask]
                  ++ trace (RerankingTask.load_data ext data_path "test")
                  ++ [Lib (CallRerankingEvaluator samples None kwargs);
                      Lib (CallRerank samples)])
                 ++ [Log LogScoresComputed;
                     Log (LogScores scores);
                     Log (LogScores scores)])
              (Ok tt)) as ->; [|split; [done|by eexists]].
  unfold reranking_body, RerankingTask.init. cbv zeta. fold data_path kwargs.
  run. rewrite (bind_ok _ _ samples Hdata). cbn [negb].
  rewrite mret_bind, Hinit. run. unfold RerankingTask.compute_scores.
  rewrite Hcall. run.
  cbn [mret M_ret mbind M_bind outcome trace logger_info
       RerankingTask.scores].
  f_equal. cbn [app]. do 2 f_equal. rewrite <-!app_assoc. done.
Qed.

End Iterations.

Section WholeRun.
Context `{T : Types} (ext : externals).

(** X18: when every iteration succeeds, the script runs the retrieval
    tasks in the order of their list, then the reranking tasks in the
    order of theirs, then releases the cache once; its outcome is that of
    the release. *)
Theorem script_success (model : SentenceTransformer Emb) :
  let retriever :=
    {| CustomDRESModel.model := model;
       CustomDRESModel.prompt := QUERY_PROMPT |} in
  let reranker :=
    {| CustomRerankingModel.model := model;
       CustomRerankingModel.prompt := QUERY_PROMPT |} in
  Forall (λ t, outcome (retrieval_body ext retriever t) = Ok tt)
    RETRIEVAL_TASKS →
  Forall (λ t, outcome (reranking_body ext reranker t) = Ok tt)
    RERANKING_TASKS →
  script ext model
  = MkM ((RETRIEVAL_TASKS ≫= λ t, trace (retrieval_body ext retriever t))
         ++ (RERANKING_TASKS ≫= λ t, trace (reranking_body ext reranker t))
         ++ [Lib CallEmptyCache])
      (empty_cache ext).
Proof.
  intros retriever reranker Hretr Hrerank.
  unfold script. cbv zeta. fold retriever reranker.
  rewrite (for_each_ok _ _ Hretr), MkM_ok_bind.
  by rewrite (for_each_ok _ _ Hrerank), MkM_ok_bind.
Qed.





End WholeRun.

Lemma retrieval_body_missing_split_witness :
  retrieval_body queryless_externals recording_retriever "retrieval-s2p"
  = MkM [Log (LogStartingRetrieval "retrieval-s2p" model_name QUERY_PROMPT);
         Lib (CallRetrievalTask "/work/data/retrieval-s2p" model_name true)]
      (Raise (KeyError "test")).
Proof.
  apply (retrieval_body_missing_split (T := recording_types)
           queryless_externals recording_retriever "retrieval-s2p"
           (@Build_retrieval_task recording_types
              {["test" := [titled_doc]]} ∅ {["test" := 7%N]})).
  - reflexivity.
  - right. left. reflexivity.
Defined.

Lemma retrieval_body_success_witness :
  let body :=
    retrieval_body (recording_externals "" [sample_a]) recording_retriever
      "retrieval-s2p" in
  outcome body = Ok tt
  ∧ lib_calls (trace body)
    = [CallRetrievalTask "/work/data/retrieval-s2p" model_name true;
       CallRetrievalEvaluator encode_kwargs;
       CallSearch (T := recording_types) [titled_doc] [py "wall height"];
       CallEvaluate (T := recording_types) 7%N 8%N [1; 5; 10; 20; 50; 100]]
  ∧ head (trace body)
    = Some (Log (LogStartingRetrieval "retrieval-s2p" model_name
                   QUERY_PROMPT))
  ∧ last (trace body) = Some (Log (LogScores (T := recording_types) 9%N)).
Proof.
  apply (retrieval_body_success (T := recording_types)
           (recording_externals "" [sample_a]) recording_retriever
           "retrieval-s2p"
           (@Build_retrieval_task recording_types
              {["test" := [titled_doc]]}
              {["test" := [py "wall height"]]}
              {["test" := 7%N]})
           [titled_doc] [py "wall height"] 7%N 8%N 9%N);
    reflexivity.
Defined.

Lemma reranking_body_success_witness :
  let body :=
    reranking_body (recording_externals "" [sample_a; sample_b])
      recording_reranker "reranking-s2p" in
  outcome body = Ok tt
  ∧ ∃ tr, trace body
          = tr ++ [Log LogScoresComputed;
                   Log (LogScores (T := recording_types) 10%N);
                   Log (LogScores (T := recording_types) 10%N)].
Proof.
  apply (reranking_body_success (T := recording_types)
           (recording_externals "" [sample_a; sample_b]) recording_reranker
           "reranking-s2p" [sample_a; sample_b] 10%N);
    reflexivity.
Defined.

Lemma script_success_witness :
  let ext := recording_externals "" [sample_a; sample_b] in
  script ext recorder
  = MkM ((RETRIEVAL_TASKS
            ≫= λ t, trace (retrieval_body ext recording_retriever t))
         ++ (RERANKING_TASKS
               ≫= λ t, trace (reranking_body ext recording_reranker t))
         ++ [Lib CallEmptyCache])
      (Ok tt).
Proof.
  apply (script_success (T := recording_types)
           (recording_externals "" [sample_a; sample_b]) recorder);
    repeat constructor.
Defined.
